(** * Route planner: the schedule builder of [route_planner/calculator.py]

    A shallow embedding of [RouteMetricsCalculator.calculate] and of the
    data classes it produces, followed by the properties of the schedule.

    Numbers.  The Python code computes on [float] (and on the [int]
    defaults of the class).  Here every number is an exact rational [Q]:
    rounding, infinities and NaN are outside this development.  The
    comparison [==] is [Qeq], numeric equality, as Python's [==] is on
    numbers; [/] by zero raises, as in Python.

    The [while] loop is a function with fuel: [OutOfFuel] is the only
    outcome that does not stand for a behaviour of the Python code, and
    the theorems show that enough fuel always gives [Returned] when speed
    and driving window are positive. *)

From Stdlib Require Import PrimFloat.
From Stdlib Require FloatOps SpecFloat.
From Stdlib Require Import QArith Qround ZArith List String Ascii Bool Lia Lqa.
From Stdlib Require Import DecimalString.
From Stdlib Require Nnat DecimalPos DecimalFacts.
Import ListNotations.

Open Scope Q_scope.

(** ** Numbers *)

(** Python's [x < y] on numbers. *)
Definition Qlt_bool (x y : Q) : bool := negb (Qle_bool y x).

(** Python's two-argument [min(a, b)]: the first argument is kept unless
    the second is strictly smaller. *)
Definition py_min (a b : Q) : Q := if Qlt_bool b a then b else a.

(** ** Outcomes of a call *)

(** The reasons of the [ValueError]s raised by the validation, in the
    order of the checks.  The text of each is [ValueError_message]; the
    source appends the configured maximum, in parentheses, to the last. *)
Inductive invalid_input : Type :=
| TotalMilesNegative
| DeadheadMilesNegative
| DeadheadExceedsTotal
| RemainingHoursNegative
| RemainingHoursExceedMax (max_driving_hours : Q).

Definition ValueError_message (r : invalid_input) : string :=
  match r with
  | TotalMilesNegative => "Total miles cannot be negative"
  | DeadheadMilesNegative => "Deadhead miles cannot be negative"
  | DeadheadExceedsTotal => "Deadhead miles cannot exceed total miles"
  | RemainingHoursNegative => "Remaining hours cannot be negative"
  | RemainingHoursExceedMax _ => "Remaining hours cannot exceed max driving hours"
  end%string.

Inductive exception : Type :=
| ValueError (reason : invalid_input)
| ZeroDivisionError.

Inductive outcome (A : Type) : Type :=
| Returned (a : A)
| Raised (e : exception)
| OutOfFuel.

Arguments Returned {A} a.
Arguments Raised {A} e.
Arguments OutOfFuel {A}.

Definition bind {A B : Type} (m : outcome A) (k : A -> outcome B) : outcome B :=
  match m with
  | Returned a => k a
  | Raised e => Raised e
  | OutOfFuel => OutOfFuel
  end.

Notation "x <- m ;; k" := (bind m (fun x => k))
  (at level 61, m at next level, right associativity).

(** Python's true division [a / b]. *)
Definition py_div (a b : Q) : outcome Q :=
  if Qeq_bool b 0 then Raised ZeroDivisionError else Returned (a / b).

(** ** Data classes *)

Inductive ActivityType : Type := LOADING | DRIVING | BREAK | UNLOADING.

Definition ActivityType_value (t : ActivityType) : string :=
  match t with
  | LOADING => "Loading"
  | DRIVING => "Driving"
  | BREAK => "Break (10-hour rest)"
  | UNLOADING => "Unloading"
  end%string.

Definition ActivityType_eqb (x y : ActivityType) : bool :=
  match x, y with
  | LOADING, LOADING | DRIVING, DRIVING | BREAK, BREAK | UNLOADING, UNLOADING => true
  | _, _ => false
  end.

Record Activity : Type := mkActivity {
  activity_type : ActivityType;
  start_time : Q;
  duration : Q;
  miles : Q;
  notes : string
}.

Definition end_time (a : Activity) : Q := start_time a + duration a.

Record RouteMetrics : Type := mkRouteMetrics {
  total_miles : Q;
  deadhead_miles : Q;
  loaded_miles : Q;
  total_driving_time : Q;
  total_break_time : Q;
  total_load_unload_time : Q;
  total_time : Q;
  activities : list Activity
}.

(** The calculator object: the five attributes set by [__init__]. *)
Record RouteMetricsCalculator : Type := mkCalculator {
  speed_mph : Q;
  max_driving_hours : Q;
  break_duration : Q;
  loading_duration : Q;
  unloading_duration : Q
}.

Definition DEFAULT_SPEED_MPH : Q := 55.
Definition MAX_DRIVING_HOURS : Q := 11.
Definition BREAK_DURATION_HOURS : Q := 10.
Definition LOADING_DURATION_HOURS : Q := 3 # 2.
Definition UNLOADING_DURATION_HOURS : Q := 3 # 2.

(** [RouteMetricsCalculator()] with no argument. *)
Definition default_calculator : RouteMetricsCalculator :=
  mkCalculator DEFAULT_SPEED_MPH MAX_DRIVING_HOURS BREAK_DURATION_HOURS
    LOADING_DURATION_HOURS UNLOADING_DURATION_HOURS.

(** ** [calculate] *)

(** The five checks at the head of [calculate]: the first one that fails
    decides the exception, [None] when all pass. *)
Definition validate (self : RouteMetricsCalculator)
    (total_miles deadhead_miles remaining_hours : Q) : option invalid_input :=
  if Qlt_bool total_miles 0 then Some TotalMilesNegative
  else if Qlt_bool deadhead_miles 0 then Some DeadheadMilesNegative
  else if Qlt_bool total_miles deadhead_miles then Some DeadheadExceedsTotal
  else if Qlt_bool remaining_hours 0 then Some RemainingHoursNegative
  else if Qlt_bool (max_driving_hours self) remaining_hours
       then Some (RemainingHoursExceedMax (max_driving_hours self))
  else None.

(** The local variables that the [while] loop reads and writes. *)
Record locals : Type := mkLocals {
  l_activities : list Activity;
  current_time : Q;
  miles_driven : Q;
  miles_remaining : Q;
  hours_until_break : Q;
  l_total_driving_time : Q;
  l_total_break_time : Q
}.

(** The note of a driving segment (the [if] at lines 184-192). *)
Definition segment_note (miles_driven deadhead_miles miles_this_segment : Q) : string :=
  if Qlt_bool miles_driven deadhead_miles then
    let deadhead_remaining := deadhead_miles - miles_driven in
    if Qle_bool miles_this_segment deadhead_remaining
    then "Deadhead (empty)"%string
    else "Deadhead + Loaded"%string
  else "Loaded haul"%string.

(** The break is taken when this holds of the values after the segment. *)
Definition break_needed (hours_until_break miles_remaining : Q) : bool :=
  Qle_bool hours_until_break 0 && Qlt_bool 0 miles_remaining.

(** One pass through the body of the [while] loop. *)
Definition loop_body (self : RouteMetricsCalculator) (deadhead_miles : Q)
    (s : locals) : outcome locals :=
  let max_miles_before_break := hours_until_break s * speed_mph self in
  let miles_this_segment := py_min (miles_remaining s) max_miles_before_break in
  segment_duration <- py_div miles_this_segment (speed_mph self) ;;
  let note := segment_note (miles_driven s) deadhead_miles miles_this_segment in
  let acts := l_activities s ++
      [mkActivity DRIVING (current_time s) segment_duration miles_this_segment note] in
  let current_time' := current_time s + segment_duration in
  let miles_driven' := miles_driven s + miles_this_segment in
  let miles_remaining' := miles_remaining s - miles_this_segment in
  let total_driving_time' := l_total_driving_time s + segment_duration in
  let hours_until_break' := hours_until_break s - segment_duration in
  if break_needed hours_until_break' miles_remaining' then
    Returned (mkLocals
      (acts ++ [mkActivity BREAK current_time' (break_duration self) 0
                  "Mandatory 10-hour rest"])
      (current_time' + break_duration self)
      miles_driven' miles_remaining'
      (max_driving_hours self)
      total_driving_time'
      (l_total_break_time s + break_duration self))
  else
    Returned (mkLocals acts current_time' miles_driven' miles_remaining'
      hours_until_break' total_driving_time' (l_total_break_time s)).

(** [while miles_remaining > 0: body], at most [fuel] passes. *)
Fixpoint while_loop (self : RouteMetricsCalculator) (deadhead_miles : Q)
    (fuel : nat) (s : locals) : outcome locals :=
  if Qlt_bool 0 (miles_remaining s) then
    match fuel with
    | O => OutOfFuel
    | S fuel' =>
        s' <- loop_body self deadhead_miles s ;;
        while_loop self deadhead_miles fuel' s'
    end
  else Returned s.

(** The locals when the loop is entered: the loading activity is in the
    list and the clock stands at its end. *)
Definition loop_entry (self : RouteMetricsCalculator)
    (total_miles remaining_hours : Q) : locals :=
  let current_time := 0 in
  let activities :=
    [] ++ [mkActivity LOADING current_time (loading_duration self) 0
             "Loading cargo at origin"] in
  mkLocals activities (current_time + loading_duration self) 0 total_miles
    remaining_hours 0 0.

(** What follows the loop: the unloading activity and the result. *)
Definition loop_exit (self : RouteMetricsCalculator)
    (total_miles deadhead_miles loaded_miles : Q) (s : locals) : RouteMetrics :=
  let acts := l_activities s ++
      [mkActivity UNLOADING (current_time s) (unloading_duration self) 0
         "Unloading cargo at destination"] in
  let current_time' := current_time s + unloading_duration self in
  let total_load_unload_time := loading_duration self + unloading_duration self in
  mkRouteMetrics total_miles deadhead_miles loaded_miles
    (l_total_driving_time s) (l_total_break_time s)
    total_load_unload_time current_time' acts.

Definition calculate (self : RouteMetricsCalculator) (fuel : nat)
    (total_miles deadhead_miles remaining_hours : Q) : outcome RouteMetrics :=
  match validate self total_miles deadhead_miles remaining_hours with
  | Some reason => Raised (ValueError reason)
  | None =>
      let loaded_miles := total_miles - deadhead_miles in
      s <- while_loop self deadhead_miles fuel
             (loop_entry self total_miles remaining_hours) ;;
      Returned (loop_exit self total_miles deadhead_miles loaded_miles s)
  end.

(** * Vocabulary of the properties *)

(** ** The loop body as a function *)

(** When the speed is not zero the body raises nothing: it is the
    function [step] below, written with the names of the source. *)

Definition miles_this_segment (self : RouteMetricsCalculator) (s : locals) : Q :=
  py_min (miles_remaining s) (hours_until_break s * speed_mph self).

Definition segment_duration (self : RouteMetricsCalculator) (s : locals) : Q :=
  miles_this_segment self s / speed_mph self.

Definition driving_activity (self : RouteMetricsCalculator) (deadhead_miles : Q)
    (s : locals) : Activity :=
  mkActivity DRIVING (current_time s) (segment_duration self s)
    (miles_this_segment self s)
    (segment_note (miles_driven s) deadhead_miles (miles_this_segment self s)).

Definition break_activity (self : RouteMetricsCalculator) (s : locals) : Activity :=
  mkActivity BREAK (current_time s + segment_duration self s)
    (break_duration self) 0 "Mandatory 10-hour rest".

(** The test of line 209, on the values the segment leaves. *)
Definition takes_break (self : RouteMetricsCalculator) (s : locals) : bool :=
  break_needed (hours_until_break s - segment_duration self s)
    (miles_remaining s - miles_this_segment self s).

Definition step (self : RouteMetricsCalculator) (deadhead_miles : Q)
    (s : locals) : locals :=
  if takes_break self s then
    mkLocals
      ((l_activities s ++ [driving_activity self deadhead_miles s])
         ++ [break_activity self s])
      (current_time s + segment_duration self s + break_duration self)
      (miles_driven s + miles_this_segment self s)
      (miles_remaining s - miles_this_segment self s)
      (max_driving_hours self)
      (l_total_driving_time s + segment_duration self s)
      (l_total_break_time s + break_duration self)
  else
    mkLocals
      (l_activities s ++ [driving_activity self deadhead_miles s])
      (current_time s + segment_duration self s)
      (miles_driven s + miles_this_segment self s)
      (miles_remaining s - miles_this_segment self s)
      (hours_until_break s - segment_duration self s)
      (l_total_driving_time s + segment_duration self s)
      (l_total_break_time s).

(** ** Validation *)

(** A valid call: none of the five checks fires. *)
Definition valid_input (self : RouteMetricsCalculator) (tm dm rh : Q) : Prop :=
  0 <= tm /\ 0 <= dm /\ dm <= tm /\ 0 <= rh /\ rh <= max_driving_hours self.




(** ** Schedules *)

(** Python's [sum] of a list of numbers. *)
Definition py_sum (l : list Q) : Q := fold_left Qplus l 0.

Definition of_type (k : ActivityType) (a : Activity) : bool :=
  ActivityType_eqb (activity_type a) k.

(** [[a.duration for a in acts if a.activity_type == k]], and the same
    for the miles. *)
Definition durations_of (k : ActivityType) (acts : list Activity) : list Q :=
  map duration (filter (of_type k) acts).

Definition miles_of (k : ActivityType) (acts : list Activity) : list Q :=
  map miles (filter (of_type k) acts).

(** The timeline has no gap and no overlap: each activity ends when the
    next one starts. *)
Definition contiguous (acts : list Activity) : Prop :=
  forall (i : nat) (a b : Activity),
    nth_error acts i = Some a -> nth_error acts (S i) = Some b ->
    end_time a == start_time b.

(** The same, as a test that can be run on a schedule. *)
Fixpoint contiguousb (acts : list Activity) : bool :=
  match acts with
  | a :: (b :: _) as rest => Qeq_bool (end_time a) (start_time b) && contiguousb rest
  | _ => true
  end.



(** ** The loop invariant *)

Definition loading_activity (self : RouteMetricsCalculator) : Activity :=
  mkActivity LOADING 0 (loading_duration self) 0 "Loading cargo at origin".


(** ** Rendering: [RouteMetrics.format_time] and [RouteMetrics.to_table] *)

(** Python's [int(x)] on a number: the integer part, towards zero. *)
Definition py_int (x : Q) : Z := Z.quot (Qnum x) (Zpos (Qden x)).

(** Python's [str(n)] on an integer. *)
Definition py_str_int (n : Z) : string := NilZero.string_of_int (Z.to_int n).

(** Python's [s * n] on a string. *)
Fixpoint py_repeat (s : string) (n : nat) : string :=
  match n with
  | O => EmptyString
  | S n' => (s ++ py_repeat s n')%string
  end.

(** Zeros in front of [digits], up to [width] characters. *)
Definition zfill (width : nat) (digits : string) : string :=
  (py_repeat "0" (width - String.length digits) ++ digits)%string.

(** The format [0<width>d] of an integer, as in [f"{n:02d}"]: the sign
    first, then zeros, then the digits. *)
Definition format_0d (width : nat) (n : Z) : string :=
  if (n <? 0)%Z
  then ("-" ++ zfill (width - 1) (py_str_int (- n)))%string
  else zfill width (py_str_int n).

(** The format [<width>] of a string, as in [f"{s:<12}"]: spaces after
    [s], up to [width] characters. *)
Definition ljust (width : nat) (s : string) : string :=
  (s ++ py_repeat " " (width - String.length s))%string.

(** The character of a decimal digit. *)
Definition digit_char (d : Z) : ascii := ascii_of_nat (48 + Z.to_nat d).

(** The two characters of a number below 100. *)
Definition two_digits (n : Z) : string :=
  String (digit_char (n / 10)) (String (digit_char (n mod 10)) EmptyString).

(** [format_time]: hours as [HH:MM].  The method does not use [self]. *)
Definition format_time (hours : Q) : string :=
  let total_minutes := py_int (hours * 60) in
  let hrs := (total_minutes / 60)%Z in
  let mins := (total_minutes mod 60)%Z in
  (format_0d 2 hrs ++ ":" ++ format_0d 2 mins)%string.

Definition newline : string := String (ascii_of_nat 10) EmptyString.

Section Rendering.

(** The formats [.1f] and [.2f] of Python on a [float]: the decimal
    rounding of a binary number is not modelled, the two are taken as
    they come. *)
Variable float_1f : Q -> string.
Variable float_2f : Q -> string.

(** The sixteen lines that [to_table] writes before the rows. *)
Definition table_head (m : RouteMetrics) : list string :=
  [ py_repeat "=" 85;
    "ROUTE METRICS SUMMARY";
    py_repeat "=" 85;
    "Total Miles:           " ++ float_1f (total_miles m) ++ " miles";
    "Deadhead Miles:        " ++ float_1f (deadhead_miles m) ++ " miles";
    "Loaded Miles:          " ++ float_1f (loaded_miles m) ++ " miles";
    "Total Driving Time:    " ++ format_time (total_driving_time m) ++ " (" ++
      float_2f (total_driving_time m) ++ " hours)";
    "Total Break Time:      " ++ format_time (total_break_time m) ++ " (" ++
      float_2f (total_break_time m) ++ " hours)";
    "Load/Unload Time:      " ++ format_time (total_load_unload_time m) ++ " (" ++
      float_2f (total_load_unload_time m) ++ " hours)";
    "Total Route Time:      " ++ format_time (total_time m) ++ " (" ++
      float_2f (total_time m) ++ " hours)";
    EmptyString;
    py_repeat "=" 85;
    "DRIVER ACTIVITY SCHEDULE";
    py_repeat "=" 85;
    ljust 4 "#" ++ " " ++ ljust 20 "Activity" ++ " " ++
      ljust 12 "Start Time" ++ " " ++ ljust 12 "End Time" ++ " " ++
      ljust 12 "Duration" ++ " " ++ ljust 10 "Miles" ++ " " ++ "Notes";
    py_repeat "-" 85 ]%string.

(** The row of activity number [i]. *)
Definition table_row (i : Z) (activity : Activity) : string :=
  (ljust 4 (py_str_int i) ++ " " ++
   ljust 20 (ActivityType_value (activity_type activity)) ++ " " ++
   ljust 12 (format_time (start_time activity)) ++ " " ++
   ljust 12 (format_time (end_time activity)) ++ " " ++
   ljust 12 (format_time (duration activity)) ++ " " ++
   ljust 10 (float_1f (miles activity)) ++ " " ++
   notes activity)%string.

(** [for i, activity in enumerate(acts, i): lines.append(row)]. *)
Fixpoint table_rows (i : Z) (acts : list Activity) : list string :=
  match acts with
  | [] => []
  | activity :: rest => table_row i activity :: table_rows (i + 1) rest
  end.

(** The list [lines] at the end of [to_table]. *)
Definition to_table_lines (m : RouteMetrics) : list string :=
  table_head m ++ table_rows 1 (activities m) ++ [py_repeat "=" 85].

Definition to_table (m : RouteMetrics) : string :=
  String.concat newline (to_table_lines m).

End Rendering.

(** ** The command line: [cli.main] after [parser.parse_args()] *)

(** The six attributes of the parsed arguments: the three positional
    values and the three named ones, each a number or [None]. *)
Record parsed_args : Type := mkArgs {
  arg_total_miles : option Q;
  arg_deadhead : option Q;
  arg_remaining_hours : option Q;
  arg_total_miles_opt : option Q;
  arg_deadhead_opt : option Q;
  arg_remaining_hours_opt : option Q
}.

(** [x if x is not None else y]. *)
Definition if_not_None (x y : option Q) : option Q :=
  match x with
  | Some v => Some v
  | None => y
  end.

(** How [main] ends: the help and exit status 1, the line
    [Error: <message>] and exit status 1, or the table of the result
    and a normal return. *)
Inductive cli_result : Type :=
| UsageExit
| ErrorExit (line : string)
| TablePrinted (metrics : RouteMetrics).


(** [str(e)] for the [ValueError] of the default calculator, whose
    [max_driving_hours] is the integer 11. *)
Definition default_error_text (r : invalid_input) : string :=
  match r with
  | RemainingHoursExceedMax _ => (ValueError_message r ++ " (11)")%string
  | _ => ValueError_message r
  end.

(** [main], from the parsed arguments on.  Only [ValueError] is caught:
    any other exception leaves [main]. *)
Definition main (fuel : nat) (args : parsed_args) : outcome cli_result :=
  let total_miles := if_not_None (arg_total_miles args) (arg_total_miles_opt args) in
  let deadhead := if_not_None (arg_deadhead args) (arg_deadhead_opt args) in
  let remaining_hours :=
    if_not_None (arg_remaining_hours args) (arg_remaining_hours_opt args) in
  match total_miles, deadhead, remaining_hours with
  | Some total_miles, Some deadhead, Some remaining_hours =>
      let calculator := default_calculator in
      match calculate calculator fuel total_miles deadhead remaining_hours with
      | Returned metrics => Returned (TablePrinted metrics)
      | Raised (ValueError e) =>
          Returned (ErrorExit ("Error: " ++ default_error_text e)%string)
      | Raised other => Raised other
      | OutOfFuel => OutOfFuel
      end
  | _, _, _ => Returned UsageExit
  end.

(** * The code over any arithmetic

    The definitions above compute with exact rationals; Python computes
    with binary64 numbers, rounding each operation.  The module below is
    the same code with the arithmetic as a parameter: nothing is assumed
    of the operations, so that what is proved of it holds of the exact
    numbers and of the rounded ones alike.  [binary64] is the arithmetic
    of Python's [float] (the integers of the class, 55, 11, 10 and the
    literal 0, are binary64 numbers as they are), [exact] that of [Q]. *)

Module Num.

Record arithmetic : Type := mkArithmetic {
  number : Type;
  literal_0 : number;                       (* [0] and [0.0] *)
  add : number -> number -> number;         (* [a + b] *)
  sub : number -> number -> number;         (* [a - b] *)
  mul : number -> number -> number;         (* [a * b] *)
  true_div : number -> number -> number;    (* [a / b], [b] not zero *)
  equals_0 : number -> bool;                (* [b == 0] *)
  less : number -> number -> bool;          (* [a < b] *)
  less_eq : number -> number -> bool        (* [a <= b] *)
}.

Section Code.

Variable A : arithmetic.

Local Abbreviation num := (number A).

Inductive invalid_input : Type :=
| TotalMilesNegative
| DeadheadMilesNegative
| DeadheadExceedsTotal
| RemainingHoursNegative
| RemainingHoursExceedMax (max_driving_hours : num).

Inductive exception : Type :=
| ValueError (reason : invalid_input)
| ZeroDivisionError.

Inductive outcome (T : Type) : Type :=
| Returned (a : T)
| Raised (e : exception)
| OutOfFuel.

Arguments Returned {T} a.
Arguments Raised {T} e.
Arguments OutOfFuel {T}.

Definition bind {T U : Type} (m : outcome T) (k : T -> outcome U) : outcome U :=
  match m with
  | Returned a => k a
  | Raised e => Raised e
  | OutOfFuel => OutOfFuel
  end.

(** Python's two-argument [min(a, b)]. *)
Definition py_min (a b : num) : num := if less A b a then b else a.

(** Python's true division [a / b]. *)
Definition py_div (a b : num) : outcome num :=
  if equals_0 A b then Raised ZeroDivisionError else Returned (true_div A a b).

(** Python's [sum] of a list of numbers. *)
Definition py_sum (l : list num) : num := fold_left (add A) l (literal_0 A).

Record Activity : Type := mkActivity {
  activity_type : ActivityType;
  start_time : num;
  duration : num;
  miles : num;
  notes : string
}.

Definition end_time (a : Activity) : num := add A (start_time a) (duration a).

Record RouteMetrics : Type := mkRouteMetrics {
  total_miles : num;
  deadhead_miles : num;
  loaded_miles : num;
  total_driving_time : num;
  total_break_time : num;
  total_load_unload_time : num;
  total_time : num;
  activities : list Activity
}.

Record RouteMetricsCalculator : Type := mkCalculator {
  speed_mph : num;
  max_driving_hours : num;
  break_duration : num;
  loading_duration : num;
  unloading_duration : num
}.

Definition validate (self : RouteMetricsCalculator)
    (total_miles deadhead_miles remaining_hours : num) : option invalid_input :=
  if less A total_miles (literal_0 A) then Some TotalMilesNegative
  else if less A deadhead_miles (literal_0 A) then Some DeadheadMilesNegative
  else if less A total_miles deadhead_miles then Some DeadheadExceedsTotal
  else if less A remaining_hours (literal_0 A) then Some RemainingHoursNegative
  else if less A (max_driving_hours self) remaining_hours
       then Some (RemainingHoursExceedMax (max_driving_hours self))
  else None.

Record locals : Type := mkLocals {
  l_activities : list Activity;
  current_time : num;
  miles_driven : num;
  miles_remaining : num;
  hours_until_break : num;
  l_total_driving_time : num;
  l_total_break_time : num
}.

Definition segment_note (miles_driven deadhead_miles miles_this_segment : num)
  : string :=
  if less A miles_driven deadhead_miles then
    let deadhead_remaining := sub A deadhead_miles miles_driven in
    if less_eq A miles_this_segment deadhead_remaining
    then "Deadhead (empty)"%string
    else "Deadhead + Loaded"%string
  else "Loaded haul"%string.

Definition break_needed (hours_until_break miles_remaining : num) : bool :=
  less_eq A hours_until_break (literal_0 A) &&
  less A (literal_0 A) miles_remaining.

(** One pass through the body of the [while] loop. *)
Definition loop_body (self : RouteMetricsCalculator) (deadhead_miles : num)
    (s : locals) : outcome locals :=
  let max_miles_before_break := mul A (hours_until_break s) (speed_mph self) in
  let miles_this_segment := py_min (miles_remaining s) max_miles_before_break in
  bind (py_div miles_this_segment (speed_mph self)) (fun segment_duration =>
  let note := segment_note (miles_driven s) deadhead_miles miles_this_segment in
  let acts := l_activities s ++
      [mkActivity DRIVING (current_time s) segment_duration miles_this_segment note] in
  let current_time' := add A (current_time s) segment_duration in
  let miles_driven' := add A (miles_driven s) miles_this_segment in
  let miles_remaining' := sub A (miles_remaining s) miles_this_segment in
  let total_driving_time' := add A (l_total_driving_time s) segment_duration in
  let hours_until_break' := sub A (hours_until_break s) segment_duration in
  if break_needed hours_until_break' miles_remaining' then
    Returned (mkLocals
      (acts ++ [mkActivity BREAK current_time' (break_duration self)
                  (literal_0 A) "Mandatory 10-hour rest"])
      (add A current_time' (break_duration self))
      miles_driven' miles_remaining'
      (max_driving_hours self)
      total_driving_time'
      (add A (l_total_break_time s) (break_duration self)))
  else
    Returned (mkLocals acts current_time' miles_driven' miles_remaining'
      hours_until_break' total_driving_time' (l_total_break_time s))).

(** [while miles_remaining > 0: body], at most [fuel] passes. *)
Fixpoint while_loop (self : RouteMetricsCalculator) (deadhead_miles : num)
    (fuel : nat) (s : locals) : outcome locals :=
  if less A (literal_0 A) (miles_remaining s) then
    match fuel with
    | O => OutOfFuel
    | S fuel' =>
        bind (loop_body self deadhead_miles s)
          (while_loop self deadhead_miles fuel')
    end
  else Returned s.

Definition loop_entry (self : RouteMetricsCalculator)
    (total_miles remaining_hours : num) : locals :=
  let current_time := literal_0 A in
  let activities :=
    [] ++ [mkActivity LOADING current_time (loading_duration self)
             (literal_0 A) "Loading cargo at origin"] in
  mkLocals activities (add A current_time (loading_duration self))
    (literal_0 A) total_miles remaining_hours (literal_0 A) (literal_0 A).

Definition loop_exit (self : RouteMetricsCalculator)
    (total_miles deadhead_miles loaded_miles : num) (s : locals) : RouteMetrics :=
  let acts := l_activities s ++
      [mkActivity UNLOADING (current_time s) (unloading_duration self)
         (literal_0 A) "Unloading cargo at destination"] in
  let current_time' := add A (current_time s) (unloading_duration self) in
  let total_load_unload_time :=
    add A (loading_duration self) (unloading_duration self) in
  mkRouteMetrics total_miles deadhead_miles loaded_miles
    (l_total_driving_time s) (l_total_break_time s)
    total_load_unload_time current_time' acts.

Definition calculate (self : RouteMetricsCalculator) (fuel : nat)
    (total_miles deadhead_miles remaining_hours : num) : outcome RouteMetrics :=
  match validate self total_miles deadhead_miles remaining_hours with
  | Some reason => Raised (ValueError reason)
  | None =>
      let loaded_miles := sub A total_miles deadhead_miles in
      bind (while_loop self deadhead_miles fuel
              (loop_entry self total_miles remaining_hours))
        (fun s =>
           Returned (loop_exit self total_miles deadhead_miles loaded_miles s))
  end.

(** The kinds and the miles of a schedule. *)
Definition kinds (acts : list Activity) : list ActivityType :=
  map activity_type acts.

Definition of_type (k : ActivityType) (a : Activity) : bool :=
  ActivityType_eqb (activity_type a) k.

Definition miles_of (k : ActivityType) (acts : list Activity) : list num :=
  map miles (filter (of_type k) acts).

Definition durations_of (k : ActivityType) (acts : list Activity) : list num :=
  map duration (filter (of_type k) acts).

Definition count_type (k : ActivityType) (acts : list Activity) : nat :=
  List.length (filter (of_type k) acts).


(** The quantities of one pass, with the names of the source. *)
Definition miles_this_segment (self : RouteMetricsCalculator) (s : locals) : num :=
  py_min (miles_remaining s) (mul A (hours_until_break s) (speed_mph self)).

Definition segment_duration (self : RouteMetricsCalculator) (s : locals) : num :=
  true_div A (miles_this_segment self s) (speed_mph self).

Definition driving_activity (self : RouteMetricsCalculator) (deadhead_miles : num)
    (s : locals) : Activity :=
  mkActivity DRIVING (current_time s) (segment_duration self s)
    (miles_this_segment self s)
    (segment_note (miles_driven s) deadhead_miles (miles_this_segment self s)).

Definition break_activity (self : RouteMetricsCalculator) (s : locals) : Activity :=
  mkActivity BREAK (add A (current_time s) (segment_duration self s))
    (break_duration self) (literal_0 A) "Mandatory 10-hour rest".

(** The test of line 209, on the values the segment leaves. *)
Definition takes_break (self : RouteMetricsCalculator) (s : locals) : bool :=
  break_needed (sub A (hours_until_break s) (segment_duration self s))
    (sub A (miles_remaining s) (miles_this_segment self s)).

(** What a pass that raises nothing does to the locals. *)
Definition step (self : RouteMetricsCalculator) (deadhead_miles : num)
    (s : locals) : locals :=
  if takes_break self s then
    mkLocals
      ((l_activities s ++ [driving_activity self deadhead_miles s])
         ++ [break_activity self s])
      (add A (add A (current_time s) (segment_duration self s))
         (break_duration self))
      (add A (miles_driven s) (miles_this_segment self s))
      (sub A (miles_remaining s) (miles_this_segment self s))
      (max_driving_hours self)
      (add A (l_total_driving_time s) (segment_duration self s))
      (add A (l_total_break_time s) (break_duration self))
  else
    mkLocals
      (l_activities s ++ [driving_activity self deadhead_miles s])
      (add A (current_time s) (segment_duration self s))
      (add A (miles_driven s) (miles_this_segment self s))
      (sub A (miles_remaining s) (miles_this_segment self s))
      (sub A (hours_until_break s) (segment_duration self s))
      (add A (l_total_driving_time s) (segment_duration self s))
      (l_total_break_time s).

End Code.

Arguments Returned {A T} a.
Arguments Raised {A T} e.
Arguments OutOfFuel {A T}.
Arguments TotalMilesNegative {A}.
Arguments DeadheadMilesNegative {A}.
Arguments DeadheadExceedsTotal {A}.
Arguments RemainingHoursNegative {A}.
Arguments RemainingHoursExceedMax {A} max_driving_hours.
Arguments ValueError {A} reason.
Arguments ZeroDivisionError {A}.
Arguments mkActivity {A} _ _ _ _ _.
Arguments activity_type {A} _.
Arguments start_time {A} _.
Arguments duration {A} _.
Arguments miles {A} _.
Arguments notes {A} _.
Arguments mkRouteMetrics {A} _ _ _ _ _ _ _ _.
Arguments total_miles {A} _.
Arguments deadhead_miles {A} _.
Arguments loaded_miles {A} _.
Arguments total_driving_time {A} _.
Arguments total_break_time {A} _.
Arguments total_load_unload_time {A} _.
Arguments total_time {A} _.
Arguments activities {A} _.
Arguments mkCalculator {A} _ _ _ _ _.
Arguments speed_mph {A} _.
Arguments max_driving_hours {A} _.
Arguments break_duration {A} _.
Arguments loading_duration {A} _.
Arguments unloading_duration {A} _.
Arguments mkLocals {A} _ _ _ _ _ _ _.
Arguments l_activities {A} _.
Arguments current_time {A} _.
Arguments miles_driven {A} _.
Arguments miles_remaining {A} _.
Arguments hours_until_break {A} _.
Arguments l_total_driving_time {A} _.
Arguments l_total_break_time {A} _.
Arguments kinds {A} acts.
Arguments of_type {A} k a.
Arguments miles_of {A} k acts.
Arguments durations_of {A} k acts.
Arguments count_type {A} k acts.

End Num.

(** The arithmetic of Python's [float]: IEEE 754 binary64, each operation
    rounded to nearest, ties to even; comparisons are false on NaN, and
    [-0.0 == 0] holds. *)
Definition binary64 : Num.arithmetic :=
  Num.mkArithmetic PrimFloat.float PrimFloat.zero
    PrimFloat.add PrimFloat.sub PrimFloat.mul PrimFloat.div
    (fun b => PrimFloat.eqb b PrimFloat.zero)
    PrimFloat.ltb PrimFloat.leb.

(** The arithmetic of the exact rationals. *)
Definition exact : Num.arithmetic :=
  Num.mkArithmetic Q 0 Qplus Qminus Qmult Qdiv
    (fun b => Qeq_bool b 0) Qlt_bool Qle_bool.

#[local] Set Warnings "-inexact-float".

(** [RouteMetricsCalculator()] on binary64 numbers. *)
Definition default_calculator_64 : Num.RouteMetricsCalculator binary64 :=
  Num.mkCalculator (A := binary64) 55%float 11%float 10%float 1.5%float 1.5%float.

(** The lines of [format_time] after [int]: hours and minutes of a whole
    number of minutes. *)
Definition format_minutes (total_minutes : Z) : string :=
  let hrs := (total_minutes / 60)%Z in
  let mins := (total_minutes mod 60)%Z in
  (format_0d 2 hrs ++ ":" ++ format_0d 2 mins)%string.

(** Python's [int(x)] on a binary64 number: the integer part, towards
    zero; [None] where Python raises, on the infinities and on NaN. *)
Definition py_int_64 (x : float) : option Z :=
  match FloatOps.Prim2SF x with
  | SpecFloat.S754_zero _ => Some 0%Z
  | SpecFloat.S754_finite sign m e =>
      let magnitude :=
        match e with
        | Zneg p => Z.quot (Zpos m) (2 ^ Zpos p)
        | _ => (Zpos m * 2 ^ e)%Z
        end in
      Some (if sign then (- magnitude)%Z else magnitude)
  | _ => None
  end.

(** [format_time] on binary64 numbers: the product [hours * 60] is
    rounded before [int] cuts it. *)
Definition format_time_64 (hours : float) : option string :=
  match py_int_64 (PrimFloat.mul hours 60%float) with
  | Some total_minutes => Some (format_minutes total_minutes)
  | None => None
  end.

(** Where the kinds of a schedule stand in the scan of [well_formed]. *)
Inductive scan : Type := AtStart | AfterLoading | AfterDriving | AfterBreak | AtEnd.

(** A schedule read from left to right: Loading; then driving segments,
    a break only between two of them; then Unloading, and nothing more. *)
Fixpoint scan_from (st : scan) (ks : list ActivityType) : bool :=
  match ks with
  | [] => match st with AtEnd => true | _ => false end
  | k :: rest =>
      match st, k with
      | AtStart, LOADING => scan_from AfterLoading rest
      | AfterLoading, DRIVING => scan_from AfterDriving rest
      | AfterLoading, UNLOADING => scan_from AtEnd rest
      | AfterDriving, DRIVING => scan_from AfterDriving rest
      | AfterDriving, BREAK => scan_from AfterBreak rest
      | AfterDriving, UNLOADING => scan_from AtEnd rest
      | AfterBreak, DRIVING => scan_from AfterDriving rest
      | _, _ => false
      end
  end.

Definition well_formed (ks : list ActivityType) : bool := scan_from AtStart ks.

(** What the loop keeps of breaks and kinds. *)
Record shape_invariant A (self : Num.RouteMetricsCalculator A)
    (s : Num.locals A) : Prop := mkShape {
  sh_driving :
    Forall (fun a => Num.activity_type a = DRIVING ->
                     Num.duration a =
                     Num.true_div A (Num.miles a) (Num.speed_mph self))
      (Num.l_activities s);
  sh_breaks :
    Forall (fun a => Num.activity_type a = BREAK ->
                     Num.duration a = Num.break_duration self /\
                     Num.miles a = Num.literal_0 A /\
                     Num.notes a = "Mandatory 10-hour rest"%string)
      (Num.l_activities s);
  sh_break_total :
    Num.l_total_break_time s =
    Num.py_sum A (repeat (Num.break_duration self)
                    (Num.count_type BREAK (Num.l_activities s)));
  sh_scan :
    exists st,
      (forall rest,
         scan_from AtStart (Num.kinds (Num.l_activities s) ++ rest) =
         scan_from st rest) /\
      ((st = AfterLoading /\ Num.kinds (Num.l_activities s) = [LOADING]) \/
       (st = AfterDriving /\
        (Num.count_type BREAK (Num.l_activities s) <
         Num.count_type DRIVING (Num.l_activities s))%nat) \/
       (st = AfterBreak /\
        (Num.count_type BREAK (Num.l_activities s) <=
         Num.count_type DRIVING (Num.l_activities s))%nat /\
        Num.less A (Num.literal_0 A) (Num.miles_remaining s) = true))
}.

(** * Properties *)

(** ** Comparisons *)

Lemma Qlt_bool_iff (x y : Q) : Qlt_bool x y = true <-> x < y.
Proof.
  unfold Qlt_bool. rewrite negb_true_iff. split.
  - intros H. apply Qnot_le_lt. intro Hle.
    apply Qle_bool_iff in Hle. congruence.
  - intros H. destruct (Qle_bool y x) eqn:E; [|reflexivity].
    apply Qle_bool_iff in E. exfalso. lra.
Qed.

Lemma Qlt_bool_false (x y : Q) : Qlt_bool x y = false <-> y <= x.
Proof.
  unfold Qlt_bool. rewrite negb_false_iff. apply Qle_bool_iff.
Qed.

Lemma Qle_bool_false (x y : Q) : Qle_bool x y = false <-> y < x.
Proof.
  rewrite <- Qlt_bool_iff. unfold Qlt_bool.
  destruct (Qle_bool x y); simpl; intuition congruence.
Qed.

Lemma Qeq_bool_false (x y : Q) : Qeq_bool x y = false <-> ~ x == y.
Proof.
  split.
  - apply Qeq_bool_neq.
  - intros H. destruct (Qeq_bool x y) eqn:E; [|reflexivity].
    apply Qeq_bool_iff in E. contradiction.
Qed.

(** Every boolean test on numbers becomes the proposition it decides. *)
Ltac qtests :=
  repeat match goal with
  | H : Qlt_bool _ _ = true |- _ => apply Qlt_bool_iff in H
  | H : Qlt_bool _ _ = false |- _ => apply Qlt_bool_false in H
  | H : Qle_bool _ _ = true |- _ => apply Qle_bool_iff in H
  | H : Qle_bool _ _ = false |- _ => apply Qle_bool_false in H
  | H : Qeq_bool _ _ = true |- _ => apply Qeq_bool_iff in H
  | H : Qeq_bool _ _ = false |- _ => apply Qeq_bool_false in H
  | |- Qlt_bool _ _ = true => apply Qlt_bool_iff
  | |- Qlt_bool _ _ = false => apply Qlt_bool_false
  | |- Qle_bool _ _ = true => apply Qle_bool_iff
  | |- Qle_bool _ _ = false => apply Qle_bool_false
  | |- Qeq_bool _ _ = true => apply Qeq_bool_iff
  | |- Qeq_bool _ _ = false => apply Qeq_bool_false
  end.


Lemma py_min_le_r (a b : Q) : py_min a b <= b.
Proof.
  unfold py_min. destruct (Qlt_bool b a) eqn:E; qtests; lra.
Qed.

Lemma py_min_cases (a b : Q) :
  (b < a /\ py_min a b = b) \/ (a <= b /\ py_min a b = a).
Proof.
  unfold py_min. destruct (Qlt_bool b a) eqn:E; qtests; auto.
Qed.

(** ** The loop body as a function *)

Lemma loop_body_step self dm s :
  loop_body self dm s =
  if Qeq_bool (speed_mph self) 0 then Raised ZeroDivisionError
  else Returned (step self dm s).
Proof.
  unfold loop_body, py_div, step, takes_break, driving_activity,
    break_activity, segment_duration, miles_this_segment.
  destruct (Qeq_bool (speed_mph self) 0); simpl; [reflexivity|].
  destruct (break_needed _ _); reflexivity.
Qed.

Lemma loop_body_Returned self dm s s' :
  loop_body self dm s = Returned s' ->
  ~ speed_mph self == 0 /\ s' = step self dm s.
Proof.
  rewrite loop_body_step.
  destruct (Qeq_bool (speed_mph self) 0) eqn:E; [discriminate|].
  intros [= <-]. qtests. auto.
Qed.

Lemma loop_body_nonzero self dm s :
  ~ speed_mph self == 0 -> loop_body self dm s = Returned (step self dm s).
Proof.
  intros H. rewrite loop_body_step.
  destruct (Qeq_bool (speed_mph self) 0) eqn:E; [|reflexivity].
  qtests. contradiction.
Qed.


Lemma step_miles_driven self dm s :
  miles_driven (step self dm s) = miles_driven s + miles_this_segment self s.
Proof. unfold step. destruct (takes_break self s); reflexivity. Qed.

Lemma step_total_driving_time self dm s :
  l_total_driving_time (step self dm s) =
  l_total_driving_time s + segment_duration self s.
Proof. unfold step. destruct (takes_break self s); reflexivity. Qed.


Lemma step_activities self dm s :
  l_activities (step self dm s) =
  l_activities s ++ driving_activity self dm s ::
    (if takes_break self s then [break_activity self s] else []).
Proof.
  unfold step. destruct (takes_break self s); simpl; [|reflexivity].
  rewrite <- app_assoc. reflexivity.
Qed.

(** ** The loop: invariants, fuel, termination *)

Section Loop.

Variable self : RouteMetricsCalculator.
Variable dm : Q.

Lemma while_loop_done fuel s :
  miles_remaining s <= 0 -> while_loop self dm fuel s = Returned s.
Proof.
  intros H. destruct fuel; simpl;
    destruct (Qlt_bool 0 (miles_remaining s)) eqn:E; try reflexivity;
    qtests; lra.
Qed.


(** More fuel does not change what the loop returns. *)
Lemma while_loop_fuel_mono fuel fuel' s s' :
  (fuel <= fuel')%nat ->
  while_loop self dm fuel s = Returned s' ->
  while_loop self dm fuel' s = Returned s'.
Proof.
  revert fuel' s. induction fuel as [|fuel IH]; intros fuel' s Hle; simpl;
    destruct (Qlt_bool 0 (miles_remaining s)) eqn:E; try discriminate.
  - intros [= <-]. apply while_loop_done. qtests. assumption.
  - destruct fuel' as [|fuel']; [lia|]. simpl. rewrite E.
    destruct (loop_body self dm s) as [s1| |]; simpl; try discriminate.
    apply IH. lia.
  - intros [= <-]. apply while_loop_done. qtests. assumption.
Qed.

(** *** What one segment covers *)

Lemma segment_duration_speed s :
  ~ speed_mph self == 0 ->
  segment_duration self s * speed_mph self == miles_this_segment self s.
Proof.
  intros H. unfold segment_duration. field. assumption.
Qed.


(** The miles end within the window: the segment is the last one. *)
Lemma segment_finishes s :
  miles_remaining s <= hours_until_break s * speed_mph self ->
  miles_this_segment self s = miles_remaining s.
Proof.
  intros Hle. unfold miles_this_segment.
  destruct (py_min_cases (miles_remaining s)
              (hours_until_break s * speed_mph self)) as [[Hlt _]|[_ ->]].
  - exfalso. lra.
  - reflexivity.
Qed.

Lemma takes_break_true s :
  takes_break self s = true <->
  hours_until_break s - segment_duration self s <= 0 /\
  0 < miles_remaining s - miles_this_segment self s.
Proof.
  unfold takes_break, break_needed. rewrite andb_true_iff.
  rewrite Qle_bool_iff, Qlt_bool_iff. reflexivity.
Qed.


Lemma takes_break_finishes s :
  miles_remaining s <= hours_until_break s * speed_mph self ->
  takes_break self s = false.
Proof.
  intros Hle. destruct (takes_break self s) eqn:E; [|reflexivity].
  apply takes_break_true in E as [_ E].
  rewrite (segment_finishes s Hle) in E. exfalso. lra.
Qed.

(** *** Termination *)

Hypothesis speed_positive : 0 < speed_mph self.
Hypothesis window_positive : 0 < max_driving_hours self.





End Loop.

(** ** Validation *)

Lemma validate_None self tm dm rh :
  validate self tm dm rh = None <-> valid_input self tm dm rh.
Proof.
  unfold validate, valid_input.
  destruct (Qlt_bool tm 0) eqn:E1; [qtests; split; [discriminate|lra]|].
  destruct (Qlt_bool dm 0) eqn:E2; [qtests; split; [discriminate|lra]|].
  destruct (Qlt_bool tm dm) eqn:E3; [qtests; split; [discriminate|lra]|].
  destruct (Qlt_bool rh 0) eqn:E4; [qtests; split; [discriminate|lra]|].
  destruct (Qlt_bool (max_driving_hours self) rh) eqn:E5;
    qtests; split; try discriminate; try lra; auto.
Qed.

(** The reason reported for an invalid call, check by check. *)
Lemma validate_Some self tm dm rh r :
  validate self tm dm rh = Some r <->
  (tm < 0 /\ r = TotalMilesNegative) \/
  (0 <= tm /\ dm < 0 /\ r = DeadheadMilesNegative) \/
  (0 <= tm /\ 0 <= dm /\ tm < dm /\ r = DeadheadExceedsTotal) \/
  (0 <= tm /\ 0 <= dm /\ dm <= tm /\ rh < 0 /\ r = RemainingHoursNegative) \/
  (0 <= tm /\ 0 <= dm /\ dm <= tm /\ 0 <= rh /\ max_driving_hours self < rh /\
   r = RemainingHoursExceedMax (max_driving_hours self)).
Proof.
  unfold validate.
  destruct (Qlt_bool tm 0) eqn:E1;
    [|destruct (Qlt_bool dm 0) eqn:E2;
      [|destruct (Qlt_bool tm dm) eqn:E3;
        [|destruct (Qlt_bool rh 0) eqn:E4;
          [|destruct (Qlt_bool (max_driving_hours self) rh) eqn:E5]]]];
    qtests;
    (split;
     [ intros H; inversion H; subst; clear H; intuition auto
     | intros H; intuition (subst; try reflexivity; exfalso; lra) ]).
Qed.

(** ** [calculate] and its loop *)

Lemma calculate_valid self fuel tm dm rh :
  valid_input self tm dm rh ->
  calculate self fuel tm dm rh =
  (s <- while_loop self dm fuel (loop_entry self tm rh) ;;
   Returned (loop_exit self tm dm (tm - dm) s)).
Proof.
  intros H. apply validate_None in H. unfold calculate. rewrite H. reflexivity.
Qed.

Lemma calculate_Returned self fuel tm dm rh m :
  calculate self fuel tm dm rh = Returned m ->
  valid_input self tm dm rh /\
  exists s, while_loop self dm fuel (loop_entry self tm rh) = Returned s /\
            m = loop_exit self tm dm (tm - dm) s.
Proof.
  unfold calculate.
  destruct (validate self tm dm rh) eqn:V; [discriminate|].
  apply validate_None in V.
  destruct (while_loop self dm fuel (loop_entry self tm rh)) as [s| |] eqn:W;
    simpl; try discriminate.
  intros [= <-]. eauto.
Qed.


(** The result does not depend on the fuel, once there is enough. *)
Lemma calculate_fuel_mono self fuel fuel' tm dm rh m :
  (fuel <= fuel')%nat ->
  calculate self fuel tm dm rh = Returned m ->
  calculate self fuel' tm dm rh = Returned m.
Proof.
  intros Hle H. apply calculate_Returned in H as (Hv & s & Hw & ->).
  rewrite (calculate_valid _ _ _ _ _ Hv).
  rewrite (while_loop_fuel_mono _ _ _ _ _ _ Hle Hw). reflexivity.
Qed.

Lemma calculate_deterministic self fuel1 fuel2 tm dm rh m1 m2 :
  calculate self fuel1 tm dm rh = Returned m1 ->
  calculate self fuel2 tm dm rh = Returned m2 ->
  m1 = m2.
Proof.
  intros H1 H2.
  apply (calculate_fuel_mono _ _ (Nat.max fuel1 fuel2)) in H1; [|lia].
  apply (calculate_fuel_mono _ _ (Nat.max fuel1 fuel2)) in H2; [|lia].
  congruence.
Qed.

(** ** Schedules *)

Lemma ActivityType_eqb_eq x y : ActivityType_eqb x y = true <-> x = y.
Proof. destruct x, y; simpl; split; congruence. Qed.







Lemma contiguousb_spec acts : contiguousb acts = true <-> contiguous acts.
Proof.
  induction acts as [|a rest IH].
  - split; [|reflexivity]. intros _ [|i] x y Hx; discriminate.
  - destruct rest as [|b rest].
    + split; [|reflexivity]. intros _ [|[|i]] x y Hx Hy; discriminate.
    + change (contiguousb (a :: b :: rest))
        with (Qeq_bool (end_time a) (start_time b) && contiguousb (b :: rest)).
      rewrite andb_true_iff, IH, Qeq_bool_iff. split.
      * intros [Hab Hr] [|i] x y Hx Hy.
        -- injection Hx as <-. injection Hy as <-. exact Hab.
        -- exact (Hr i x y Hx Hy).
      * intros H. split.
        -- exact (H 0%nat a b eq_refl eq_refl).
        -- intros i x y Hx Hy. exact (H (S i) x y Hx Hy).
Qed.

(** ** The loop invariant *)






(** * The schedule returned by [calculate] *)


(** ** The default calculator at work *)

(** Comparisons of numerals. *)
Ltac numerals := unfold Qle, Qlt, Qeq; simpl; lia.


Lemma default_speed_nonzero : ~ speed_mph default_calculator == 0.
Proof. numerals. Defined.

Lemma valid_700_100_11 : valid_input default_calculator 700 100 11.
Proof. repeat split; numerals. Defined.

Lemma valid_700_0_5 : valid_input default_calculator 700 0 5.
Proof. repeat split; numerals. Defined.



(** [calculate(300, 50, 11)]: no break. *)
Example scenario_300_50_11 :
  exists m,
    calculate default_calculator 2 300 50 11 = Returned m /\
    filter (of_type BREAK) (activities m) = [] /\
    total_driving_time m == 300 / 55 /\
    total_load_unload_time m == 3.
Proof.
  eexists. split; [vm_compute; reflexivity|].
  split; [vm_compute; reflexivity|]. split; vm_compute; reflexivity.
Qed.

(** [calculate(700, 100, 11)]: one break, of 10 hours. *)
Example scenario_700_100_11 :
  exists m b,
    calculate default_calculator 3 700 100 11 = Returned m /\
    filter (of_type BREAK) (activities m) = [b] /\
    duration b == 10 /\ total_break_time m == 10.
Proof.
  eexists _, _. split; [vm_compute; reflexivity|].
  split; [vm_compute; reflexivity|]. split; vm_compute; reflexivity.
Qed.











(** ** The checks *)

Lemma while_loop_not_raised self dm fuel : forall s e,
  ~ speed_mph self == 0 -> while_loop self dm fuel s <> Raised e.
Proof.
  induction fuel as [|fuel IH]; intros s e Hsp; simpl;
    destruct (Qlt_bool 0 (miles_remaining s)); try discriminate.
  rewrite (loop_body_nonzero _ _ _ Hsp). simpl. apply IH. assumption.
Qed.

(** C3.  [calculate] raises the invalid-input error exactly when
    [total_miles < 0], or [deadhead_miles < 0], or
    [deadhead_miles > total_miles], or [remaining_hours < 0], or
    [remaining_hours > max_driving_hours]; the first check that fails,
    in this order, decides the error.  The error is raised before the
    loop is entered (whatever the fuel, also none) and excludes a
    result.  A valid call raises no invalid-input error, and no error at
    all when the speed is not zero. *)
Theorem calculate_validation self fuel tm dm rh :
  (tm < 0 ->
   calculate self fuel tm dm rh = Raised (ValueError TotalMilesNegative)) /\
  (0 <= tm -> dm < 0 ->
   calculate self fuel tm dm rh = Raised (ValueError DeadheadMilesNegative)) /\
  (0 <= tm -> 0 <= dm -> tm < dm ->
   calculate self fuel tm dm rh = Raised (ValueError DeadheadExceedsTotal)) /\
  (0 <= tm -> 0 <= dm -> dm <= tm -> rh < 0 ->
   calculate self fuel tm dm rh = Raised (ValueError RemainingHoursNegative)) /\
  (0 <= tm -> 0 <= dm -> dm <= tm -> 0 <= rh -> max_driving_hours self < rh ->
   calculate self fuel tm dm rh =
   Raised (ValueError (RemainingHoursExceedMax (max_driving_hours self)))) /\
  ((exists r, calculate self fuel tm dm rh = Raised (ValueError r)) <->
   (tm < 0 \/ dm < 0 \/ tm < dm \/ rh < 0 \/ max_driving_hours self < rh)) /\
  (forall r, calculate self fuel tm dm rh = Raised (ValueError r) ->
     calculate self 0 tm dm rh = Raised (ValueError r) /\
     forall fuel' m, calculate self fuel' tm dm rh <> Returned m) /\
  (valid_input self tm dm rh ->
   (forall r, calculate self fuel tm dm rh <> Raised (ValueError r)) /\
   (~ speed_mph self == 0 ->
    forall e, calculate self fuel tm dm rh <> Raised e)).
Proof.
  assert (Hraise : forall r fuel',
            validate self tm dm rh = Some r ->
            calculate self fuel' tm dm rh = Raised (ValueError r)).
  { intros r fuel' H. unfold calculate. rewrite H. reflexivity. }
  assert (Hvalue : forall r fuel',
            calculate self fuel' tm dm rh = Raised (ValueError r) ->
            validate self tm dm rh = Some r).
  { intros r fuel' H. unfold calculate in H.
    destruct (validate self tm dm rh) as [r'|] eqn:V; [congruence|].
    destruct (while_loop self dm fuel' (loop_entry self tm rh)) as [s| |] eqn:W;
      simpl in H; try discriminate.
    injection H as ->.
    (* the loop raises no [ValueError] *)
    exfalso. clear V. revert W. generalize (loop_entry self tm rh).
    induction fuel' as [|n IH]; intros s; simpl;
      destruct (Qlt_bool 0 (miles_remaining s)); try discriminate.
    rewrite loop_body_step.
    destruct (Qeq_bool (speed_mph self) 0); simpl; [discriminate|apply IH]. }
  repeat apply conj.
  - intros H. apply Hraise, validate_Some. intuition.
  - intros H1 H2. apply Hraise, validate_Some. intuition.
  - intros H1 H2 H3. apply Hraise, validate_Some. intuition.
  - intros H1 H2 H3 H4. apply Hraise, validate_Some. intuition.
  - intros H1 H2 H3 H4 H5. apply Hraise, validate_Some. intuition.
  - intros [r H]. apply Hvalue, validate_Some in H. intuition lra.
  - intros H.
    destruct (validate self tm dm rh) as [r|] eqn:V.
    + exists r. apply Hraise. reflexivity.
    + apply validate_None in V. unfold valid_input in V. exfalso.
      intuition lra.
  - intros r H. split.
    + apply Hraise. eapply Hvalue. eassumption.
    + intros fuel' m Hm. apply calculate_Returned in Hm as [Hv _].
      apply validate_None in Hv. apply Hvalue in H. congruence.
  - intros H. split.
    + intros r Hr. apply Hvalue in Hr. apply validate_None in H. congruence.
    + intros Hsp e He. rewrite (calculate_valid _ _ _ _ _ H) in He.
      destruct (while_loop self dm fuel (loop_entry self tm rh)) as [s| |] eqn:W;
        simpl in He; try discriminate.
      injection He as ->. exact (while_loop_not_raised _ _ _ _ _ Hsp W).
Qed.

Lemma calculate_validation_witness :
  calculate default_calculator 0 (-1) (-2) 12 =
    Raised (ValueError TotalMilesNegative) /\
  calculate default_calculator 0 700 100 12 =
    Raised (ValueError (RemainingHoursExceedMax 11)) /\
  forall e, calculate default_calculator 3 700 100 11 <> Raised e.
Proof.
  split; [|split].
  - destruct (calculate_validation default_calculator 0 (-1) (-2) 12)
      as (Hfirst & _).
    apply Hfirst. numerals.
  - destruct (calculate_validation default_calculator 0 700 100 12)
      as (_ & _ & _ & _ & Hfifth & _).
    apply Hfifth; numerals.
  - destruct (calculate_validation default_calculator 3 700 100 11)
      as (_ & _ & _ & _ & _ & _ & _ & Hvalid).
    apply Hvalid.
    + exact valid_700_100_11.
    + exact default_speed_nonzero.
Defined.

(** ** One pass of the loop *)

(** C6.  A pass of the loop emits its segment as one Driving activity,
    whatever the deadhead miles, followed by no other Driving activity;
    its note compares the miles driven so far with the deadhead miles:
    "Deadhead (empty)" when the segment stays within the deadhead miles
    not yet driven, "Deadhead + Loaded" when it starts within them and
    goes past, "Loaded haul" when they are already driven. *)
Theorem driving_segment_note self dm s s' :
  loop_body self dm s = Returned s' ->
  exists d tail,
    l_activities s' = l_activities s ++ d :: tail /\
    filter (of_type DRIVING) (d :: tail) = [d] /\
    start_time d = current_time s /\
    miles d = miles_this_segment self s /\
    miles_driven s' = miles_driven s + miles d /\
    (miles_driven s < dm -> miles d <= dm - miles_driven s ->
     notes d = "Deadhead (empty)"%string) /\
    (miles_driven s < dm -> dm - miles_driven s < miles d ->
     notes d = "Deadhead + Loaded"%string) /\
    (dm <= miles_driven s -> notes d = "Loaded haul"%string).
Proof.
  intros Hb. apply loop_body_Returned in Hb as [_ ->].
  exists (driving_activity self dm s),
         (if takes_break self s then [break_activity self s] else []).
  split; [apply step_activities|].
  split; [destruct (takes_break self s); reflexivity|].
  rewrite step_miles_driven. simpl. unfold segment_note.
  repeat split.
  - intros H1 H2. apply Qlt_bool_iff in H1. apply Qle_bool_iff in H2.
    rewrite H1, H2. reflexivity.
  - intros H1 H2. apply Qlt_bool_iff in H1. apply Qle_bool_false in H2.
    rewrite H1, H2. reflexivity.
  - intros H. apply Qlt_bool_false in H. rewrite H. reflexivity.
Qed.

Lemma driving_segment_note_witness :
  exists d tail,
    l_activities (step default_calculator 100
                    (loop_entry default_calculator 700 11)) =
    l_activities (loop_entry default_calculator 700 11) ++ d :: tail /\
    miles d = 605 /\ notes d = "Deadhead + Loaded"%string.
Proof.
  destruct (driving_segment_note default_calculator 100
              (loop_entry default_calculator 700 11)
              (step default_calculator 100
                 (loop_entry default_calculator 700 11)))
    as (d & tail & Hacts & _ & _ & Hmiles & _ & _ & Hnote & _).
  - apply loop_body_nonzero. exact default_speed_nonzero.
  - exists d, tail. split; [exact Hacts|]. split.
    + rewrite Hmiles. vm_compute. reflexivity.
    + apply Hnote; [numerals|]. rewrite Hmiles. vm_compute. reflexivity.
Defined.

(** * Rendering *)

(** ** Strings *)

Lemma string_length_append (a b : string) :
  String.length (a ++ b) = (String.length a + String.length b)%nat.
Proof. induction a as [|c a IH]; simpl; [reflexivity|]. rewrite IH. reflexivity. Qed.

Lemma py_repeat_char_length (c : ascii) (n : nat) :
  String.length (py_repeat (String c EmptyString) n) = n.
Proof. induction n as [|n IH]; simpl; [reflexivity|]. rewrite IH. reflexivity. Qed.

Lemma ljust_length (w : nat) (s : string) :
  String.length (ljust w s) = Nat.max w (String.length s).
Proof.
  unfold ljust. rewrite string_length_append, py_repeat_char_length. lia.
Qed.

(** A string that fits its column fills it exactly. *)
Lemma ljust_fits (w : nat) (s : string) :
  (String.length s <= w)%nat -> String.length (ljust w s) = w.
Proof. intros H. rewrite ljust_length. lia. Qed.

(** Checked on each of the hundred numbers. *)
Lemma format_0d_two_digits (n : Z) :
  (0 <= n < 100)%Z -> format_0d 2 n = two_digits n.
Proof.
  intros Hn.
  assert (Hall : forallb (fun k => String.eqb (format_0d 2 (Z.of_nat k))
                                     (two_digits (Z.of_nat k)))
                   (seq 0 100) = true) by (vm_compute; reflexivity).
  rewrite forallb_forall in Hall.
  specialize (Hall (Z.to_nat n)).
  rewrite Z2Nat.id in Hall by lia.
  apply String.eqb_eq, Hall, in_seq. lia.
Qed.

(** ** [int] and the floor *)

Lemma py_int_nonneg (x : Q) : 0 <= x -> py_int x = Qfloor x.
Proof.
  destruct x as [n d]. unfold py_int, Qfloor, Qle. simpl. intros H.
  apply Z.quot_div_nonneg; lia.
Qed.

Lemma Qfloor_bounds (x : Q) (z : Z) :
  inject_Z z <= x -> x < inject_Z z + 1 -> Qfloor x = z.
Proof.
  intros Hlo Hhi.
  pose proof (Qfloor_le x) as H1. pose proof (Qlt_floor x) as H2.
  rewrite inject_Z_plus in H2. change (inject_Z 1) with 1 in H2.
  assert (Ha : inject_Z z < inject_Z (Qfloor x) + 1) by lra.
  assert (Hb : inject_Z (Qfloor x) < inject_Z z + 1) by lra.
  change 1 with (inject_Z 1) in Ha, Hb. rewrite <- inject_Z_plus in Ha, Hb.
  rewrite <- Zlt_Qlt in Ha, Hb. lia.
Qed.

(** The whole hours of a time are the whole hours of its whole
    minutes. *)
Lemma Qfloor_minutes_hours (x : Q) :
  (Qfloor (x * 60) / 60)%Z = Qfloor x.
Proof.
  symmetry. apply Qfloor_bounds.
  - pose proof (Qfloor_le (x * 60)) as H1.
    pose proof (Z.mul_div_le (Qfloor (x * 60)) 60 eq_refl) as H2.
    rewrite Zle_Qle, inject_Z_mult in H2. change (inject_Z 60) with 60 in H2.
    lra.
  - pose proof (Qlt_floor (x * 60)) as H1.
    rewrite inject_Z_plus in H1. change (inject_Z 1) with 1 in H1.
    pose proof (Z.mod_pos_bound (Qfloor (x * 60)) 60 eq_refl) as H2.
    pose proof (Z.div_mod (Qfloor (x * 60)) 60) as H3.
    assert (Hz : (Qfloor (x * 60) + 1 <= 60 * (Qfloor (x * 60) / 60 + 1))%Z)
      by lia.
    rewrite Zle_Qle, inject_Z_mult, !inject_Z_plus in Hz.
    change (inject_Z 60) with 60 in Hz. change (inject_Z 1) with 1 in Hz.
    lra.
Qed.

(** ** [format_time] *)

Lemma format_time_nonneg (hours : Q) :
  0 <= hours ->
  format_time hours =
  (format_0d 2 (Qfloor hours) ++ ":" ++
   format_0d 2 (Qfloor (hours * 60) mod 60))%string.
Proof.
  intros H. unfold format_time.
  rewrite py_int_nonneg by lra. rewrite Qfloor_minutes_hours. reflexivity.
Qed.

(** ** [to_table] *)

Lemma string_append_assoc (a b c : string) :
  ((a ++ b) ++ c = a ++ (b ++ c))%string.
Proof. induction a as [|x a IH]; simpl; [reflexivity|]. rewrite IH. reflexivity. Qed.

Lemma format_time_length (hours : Q) :
  0 <= hours -> hours < 100 -> String.length (format_time hours) = 5%nat.
Proof.
  intros H0 H100.
  assert (Hh : (0 <= Qfloor hours < 100)%Z).
  { split.
    - rewrite <- (Qfloor_Z 0). apply Qfloor_resp_le. exact H0.
    - pose proof (Qfloor_le hours) as Hle.
      assert (Hq : inject_Z (Qfloor hours) < inject_Z 100)
        by (change (inject_Z 100) with 100; lra).
      rewrite <- Zlt_Qlt in Hq. exact Hq. }
  pose proof (Z.mod_pos_bound (Qfloor (hours * 60)) 60 eq_refl) as Hm.
  rewrite format_time_nonneg by assumption.
  rewrite !format_0d_two_digits by lia. reflexivity.
Qed.

(** Seven columns, the last one apart. *)
Lemma row_prefix (c1 c2 c3 c4 c5 c6 sp n : string) :
  (c1 ++ sp ++ c2 ++ sp ++ c3 ++ sp ++ c4 ++ sp ++ c5 ++ sp ++ c6 ++ sp ++ n =
   (c1 ++ sp ++ c2 ++ sp ++ c3 ++ sp ++ c4 ++ sp ++ c5 ++ sp ++ c6 ++ sp) ++ n)%string.
Proof. rewrite !string_append_assoc. reflexivity. Qed.

(** *** The digits of a number *)

Lemma string_of_uint_length (d : Decimal.uint) :
  String.length (NilEmpty.string_of_uint d) = Decimal.nb_digits d.
Proof. induction d; simpl; congruence. Qed.

Lemma to_lu_small (r : N) :
  (r < 10)%N -> Decimal.nb_digits (DecimalPos.Unsigned.to_lu r) = 1%nat.
Proof.
  intros Hr.
  assert (H : (r = 0 \/ r = 1 \/ r = 2 \/ r = 3 \/ r = 4 \/ r = 5 \/ r = 6 \/
               r = 7 \/ r = 8 \/ r = 9)%N) by lia.
  repeat (destruct H as [-> | H]; [reflexivity | ]). subst r. reflexivity.
Qed.

Lemma to_lu_iter_succ (k : nat) (n : N) :
  DecimalPos.Unsigned.to_lu (Nat.iter k N.succ n) =
  Nat.iter k Decimal.Little.succ (DecimalPos.Unsigned.to_lu n).
Proof.
  induction k as [|k IH]; [reflexivity|].
  rewrite !DecimalPos.Unsigned.nat_iter_S, DecimalPos.Unsigned.to_lu_succ, IH. reflexivity.
Qed.

Lemma add_iter_succ (k : nat) (n : N) :
  (n + N.of_nat k)%N = Nat.iter k N.succ n.
Proof.
  induction k as [|k IH]; [simpl; lia|].
  rewrite Nnat.Nat2N.inj_succ, DecimalPos.Unsigned.nat_iter_S, <- IH. lia.
Qed.

Lemma units_digit (k : nat) (d : Decimal.uint) :
  (k < 10)%nat ->
  Decimal.nb_digits (Nat.iter k Decimal.Little.succ (Decimal.D0 d)) =
  S (Decimal.nb_digits d).
Proof.
  intros Hk.
  do 10 (destruct k as [|k]; [reflexivity|]). lia.
Qed.

Lemma to_lu_next_digit (q r : N) :
  (0 < q)%N -> (r < 10)%N ->
  Decimal.nb_digits (DecimalPos.Unsigned.to_lu (10 * q + r)) =
  S (Decimal.nb_digits (DecimalPos.Unsigned.to_lu q)).
Proof.
  intros Hq Hr. destruct q as [|p]; [lia|].
  rewrite <- (Nnat.N2Nat.id r), add_iter_succ, to_lu_iter_succ.
  rewrite DecimalPos.Unsigned.to_ldec_tenfold. apply units_digit. lia.
Qed.

Lemma to_lu_digits (k : nat) : forall n : N,
  (n < 10 ^ N.of_nat (S k))%N ->
  (Decimal.nb_digits (DecimalPos.Unsigned.to_lu n) <= S k)%nat.
Proof.
  induction k as [|k IH]; intros n Hn.
  - rewrite to_lu_small; [lia|exact Hn].
  - pose proof (N.div_mod n 10) as Hd.
    pose proof (N.mod_lt n 10) as Hr.
    destruct (N.eq_dec (n / 10) 0) as [Hz|Hz].
    + rewrite to_lu_small; [lia|]. rewrite Hz in Hd. lia.
    + rewrite Hd by lia. rewrite to_lu_next_digit by lia.
      apply le_n_S, IH.
      apply N.Div0.div_lt_upper_bound.
      rewrite Nnat.Nat2N.inj_succ, N.pow_succ_r' in Hn. exact Hn.
Qed.

Lemma py_str_int_length (i : Z) :
  (0 <= i < 10000)%Z -> (String.length (py_str_int i) <= 4)%nat.
Proof.
  intros Hi. destruct i as [|p|p]; [simpl; lia| |lia].
  unfold py_str_int. simpl Z.to_int.
  change (NilZero.string_of_int (Decimal.Pos (Pos.to_uint p)))
    with (NilZero.string_of_uint (Pos.to_uint p)).
  unfold NilZero.string_of_uint.
  pose proof (DecimalPos.Unsigned.to_uint_nonnil p) as Hnil.
  assert (Hlen : (String.length (NilEmpty.string_of_uint (Pos.to_uint p)) <= 4)%nat).
  { rewrite string_of_uint_length. unfold Pos.to_uint.
    rewrite DecimalFacts.nb_digits_rev.
    apply (to_lu_digits 3 (N.pos p)). simpl. lia. }
  destruct (Pos.to_uint p); [contradiction|exact Hlen..].
Qed.

Lemma ActivityType_value_length (t : ActivityType) :
  (String.length (ActivityType_value t) <= 20)%nat.
Proof. destruct t; simpl; lia. Qed.

Lemma table_rows_length float_1f acts : forall i,
  List.length (table_rows float_1f i acts) = List.length acts.
Proof. induction acts as [|a acts IH]; intros i; simpl; [|rewrite IH]; reflexivity. Qed.

Lemma table_rows_nth float_1f acts : forall i k a,
  nth_error acts k = Some a ->
  nth_error (table_rows float_1f i acts) k =
  Some (table_row float_1f (i + Z.of_nat k) a).
Proof.
  induction acts as [|b acts IH]; intros i k a Hk.
  - destruct k; discriminate.
  - destruct k as [|k]; simpl in *.
    + injection Hk as ->. rewrite Z.add_0_r. reflexivity.
    + rewrite (IH (i + 1)%Z k a Hk). do 2 f_equal. lia.
Qed.

(** X11.  [to_table] writes sixteen lines, then one row for each
    activity, in the order of the schedule and numbered from 1, then a
    closing rule: seventeen lines more than there are activities. *)
Theorem to_table_one_row_per_activity float_1f float_2f m :
  List.length (to_table_lines float_1f float_2f m) =
    (17 + List.length (activities m))%nat /\
  (forall k a,
     nth_error (activities m) k = Some a ->
     nth_error (to_table_lines float_1f float_2f m) (16 + k) =
     Some (table_row float_1f (Z.of_nat k + 1) a)) /\
  nth_error (to_table_lines float_1f float_2f m)
    (16 + List.length (activities m)) = Some (py_repeat "=" 85) /\
  to_table float_1f float_2f m =
    String.concat newline (to_table_lines float_1f float_2f m).
Proof.
  unfold to_table_lines.
  assert (Hhead : List.length (table_head float_1f float_2f m) = 16%nat)
    by reflexivity.
  split; [|split; [|split]].
  - rewrite !length_app, table_rows_length, Hhead. simpl. lia.
  - intros k a Hk. rewrite nth_error_app2 by (rewrite Hhead; lia).
    rewrite Hhead. replace (16 + k - 16)%nat with k by lia.
    rewrite nth_error_app1
      by (rewrite table_rows_length; apply nth_error_Some; congruence).
    rewrite (table_rows_nth float_1f _ 1 k a Hk). do 2 f_equal. lia.
  - rewrite nth_error_app2 by (rewrite Hhead; lia).
    rewrite Hhead.
    replace (16 + List.length (activities m) - 16)%nat
      with (List.length (activities m)) by lia.
    rewrite nth_error_app2 by (rewrite table_rows_length; lia).
    rewrite table_rows_length, Nat.sub_diag. reflexivity.
  - reflexivity.
Qed.

Lemma to_table_one_row_per_activity_witness :
  nth_error
    (to_table_lines (fun _ => "0.0"%string) (fun _ => "0.00"%string)
       (mkRouteMetrics 0 0 0 0 0 0 0
          [loading_activity default_calculator;
           mkActivity UNLOADING (3 # 2) (3 # 2) 0
             "Unloading cargo at destination"]))
    17 =
  Some (table_row (fun _ => "0.0"%string) 2
          (mkActivity UNLOADING (3 # 2) (3 # 2) 0
             "Unloading cargo at destination")).
Proof.
  refine (proj1 (proj2 (to_table_one_row_per_activity _ _ _)) 1%nat _ _).
  reflexivity.
Defined.

(** X12.  The columns of a row line up with those of the header: for an
    activity numbered below 10000, between 0 and 100 hours, whose miles
    print in at most 10 characters, the note starts at column 76, where
    the header has "Notes".  The four labels of the kinds fit their
    column of 20, "Break (10-hour rest)" to the last character. *)
Theorem table_row_aligned float_1f float_2f m i a :
  (0 <= i < 10000)%Z ->
  0 <= start_time a -> 0 <= duration a -> end_time a < 100 ->
  (String.length (float_1f (miles a)) <= 10)%nat ->
  (exists prefix,
     table_row float_1f i a = (prefix ++ notes a)%string /\
     String.length prefix = 76%nat) /\
  (exists prefix,
     nth_error (table_head float_1f float_2f m) 14 =
       Some (prefix ++ "Notes")%string /\
     String.length prefix = 76%nat) /\
  String.length (ActivityType_value BREAK) = 20%nat.
Proof.
  intros Hi Hs Hd He Hm. unfold end_time in He.
  split; [|split].
  - eexists. split; [apply row_prefix|].
    rewrite !string_length_append.
    rewrite (ljust_fits 4) by (apply py_str_int_length; exact Hi).
    rewrite (ljust_fits 20) by apply ActivityType_value_length.
    rewrite !(ljust_fits 12)
      by (rewrite format_time_length; unfold end_time; try lia; lra).
    rewrite (ljust_fits 10) by exact Hm.
    reflexivity.
  - eexists. split.
    + cbn [nth_error table_head]. f_equal. apply row_prefix.
    + reflexivity.
  - reflexivity.
Qed.

Lemma table_row_aligned_witness :
  exists prefix,
    table_row (fun _ => "0.0"%string) 3
      (mkActivity BREAK (25 # 2) 10 0 "Mandatory 10-hour rest") =
    (prefix ++ "Mandatory 10-hour rest")%string /\
    String.length prefix = 76%nat.
Proof.
  refine (proj1 (table_row_aligned (fun _ => "0.0"%string)
                   (fun _ => "0.00"%string)
                   (mkRouteMetrics 0 0 0 0 0 0 0 [])
                   3 (mkActivity BREAK (25 # 2) 10 0 "Mandatory 10-hour rest")
                   _ _ _ _ _)).
  - lia.
  - numerals.
  - numerals.
  - numerals.
  - simpl. lia.
Defined.

(** * The command line *)


Lemma main_resolved fuel args tm dm rh :
  if_not_None (arg_total_miles args) (arg_total_miles_opt args) = Some tm ->
  if_not_None (arg_deadhead args) (arg_deadhead_opt args) = Some dm ->
  if_not_None (arg_remaining_hours args) (arg_remaining_hours_opt args) = Some rh ->
  main fuel args =
  match calculate default_calculator fuel tm dm rh with
  | Returned metrics => Returned (TablePrinted metrics)
  | Raised (ValueError e) =>
      Returned (ErrorExit ("Error: " ++ default_error_text e)%string)
  | Raised other => Raised other
  | OutOfFuel => OutOfFuel
  end.
Proof. intros H1 H2 H3. unfold main. rewrite H1, H2, H3. reflexivity. Qed.




(** X14.  The line that [main] prints for values that fail a check: the
    message of the first check that fails, after "Error: ", and the
    maximum of 11 hours in the last one.  With a value missing it prints
    the help instead. *)
Theorem main_error_line fuel args tm dm rh :
  if_not_None (arg_total_miles args) (arg_total_miles_opt args) = Some tm ->
  if_not_None (arg_deadhead args) (arg_deadhead_opt args) = Some dm ->
  if_not_None (arg_remaining_hours args) (arg_remaining_hours_opt args) = Some rh ->
  (tm < 0 ->
   main fuel args =
   Returned (ErrorExit "Error: Total miles cannot be negative")) /\
  (0 <= tm -> dm < 0 ->
   main fuel args =
   Returned (ErrorExit "Error: Deadhead miles cannot be negative")) /\
  (0 <= tm -> 0 <= dm -> tm < dm ->
   main fuel args =
   Returned (ErrorExit "Error: Deadhead miles cannot exceed total miles")) /\
  (0 <= tm -> 0 <= dm -> dm <= tm -> rh < 0 ->
   main fuel args =
   Returned (ErrorExit "Error: Remaining hours cannot be negative")) /\
  (0 <= tm -> 0 <= dm -> dm <= tm -> 0 <= rh -> 11 < rh ->
   main fuel args =
   Returned (ErrorExit
     "Error: Remaining hours cannot exceed max driving hours (11)")).
Proof.
  intros E1 E2 E3. rewrite (main_resolved fuel args tm dm rh E1 E2 E3).
  assert (Hline : forall r,
            validate default_calculator tm dm rh = Some r ->
            match calculate default_calculator fuel tm dm rh with
            | Returned metrics => Returned (TablePrinted metrics)
            | Raised (ValueError e) =>
                Returned (ErrorExit ("Error: " ++ default_error_text e)%string)
            | Raised other => Raised other
            | OutOfFuel => OutOfFuel
            end = Returned (ErrorExit ("Error: " ++ default_error_text r)%string)).
  { intros r V. unfold calculate. rewrite V. reflexivity. }
  repeat apply conj; intros;
    match goal with
    | |- _ = Returned (ErrorExit ?line) =>
        first
          [ apply (Hline TotalMilesNegative)
          | apply (Hline DeadheadMilesNegative)
          | apply (Hline DeadheadExceedsTotal)
          | apply (Hline RemainingHoursNegative)
          | apply (Hline (RemainingHoursExceedMax 11)) ]
    end;
    apply validate_Some; simpl max_driving_hours;
    unfold MAX_DRIVING_HOURS; intuition.
Qed.

Lemma main_error_line_witness :
  main 0 (mkArgs None None None (Some 100) (Some 0) (Some 15)) =
  Returned (ErrorExit
    "Error: Remaining hours cannot exceed max driving hours (11)").
Proof.
  refine (proj2 (proj2 (proj2 (proj2
            (main_error_line 0
               (mkArgs None None None (Some 100) (Some 0) (Some 15))
               100 0 15 eq_refl eq_refl eq_refl)))) _ _ _ _ _);
    numerals.
Defined.

(** * Properties that hold in every arithmetic *)

Section AnyArithmetic.

Variable A : Num.arithmetic.
Variable self : Num.RouteMetricsCalculator A.
Variable dm : Num.number A.

Lemma num_loop_body_step s :
  Num.loop_body A self dm s =
  if Num.equals_0 A (Num.speed_mph self)
  then Num.Raised Num.ZeroDivisionError
  else Num.Returned (Num.step A self dm s).
Proof.
  unfold Num.loop_body, Num.py_div, Num.step, Num.takes_break,
    Num.driving_activity, Num.break_activity, Num.segment_duration,
    Num.miles_this_segment.
  destruct (Num.equals_0 A (Num.speed_mph self)); simpl; [reflexivity|].
  destruct (Num.break_needed A _ _); reflexivity.
Qed.

Lemma num_loop_body_Returned s s' :
  Num.loop_body A self dm s = Num.Returned s' ->
  Num.equals_0 A (Num.speed_mph self) = false /\ s' = Num.step A self dm s.
Proof.
  rewrite num_loop_body_step.
  destruct (Num.equals_0 A (Num.speed_mph self)); [discriminate|].
  intros [= <-]. auto.
Qed.

Lemma num_takes_break_true s :
  Num.takes_break A self s = true ->
  Num.less A (Num.literal_0 A)
    (Num.sub A (Num.miles_remaining s) (Num.miles_this_segment A self s)) = true.
Proof.
  unfold Num.takes_break, Num.break_needed. rewrite andb_true_iff. tauto.
Qed.

Lemma num_step_activities s :
  Num.l_activities (Num.step A self dm s) =
  Num.l_activities s ++ Num.driving_activity A self dm s ::
    (if Num.takes_break A self s then [Num.break_activity A self s] else []).
Proof.
  unfold Num.step. destruct (Num.takes_break A self s); simpl; [|reflexivity].
  rewrite <- app_assoc. reflexivity.
Qed.


(** A property kept by every pass holds when the loop returns, and the
    loop returns only when the test of the [while] fails. *)
Lemma num_while_loop_invariant (P : Num.locals A -> Prop) :
  (forall s, P s ->
     Num.less A (Num.literal_0 A) (Num.miles_remaining s) = true ->
     Num.equals_0 A (Num.speed_mph self) = false ->
     P (Num.step A self dm s)) ->
  forall fuel s s',
    P s -> Num.while_loop A self dm fuel s = Num.Returned s' ->
    P s' /\ Num.less A (Num.literal_0 A) (Num.miles_remaining s') = false.
Proof.
  intros Hstep. induction fuel as [|fuel IH]; intros s s' HP; simpl;
    destruct (Num.less A (Num.literal_0 A) (Num.miles_remaining s)) eqn:E;
    try discriminate; try (intros [= <-]; auto).
  destruct (Num.loop_body A self dm s) as [s1| |] eqn:Hb; simpl;
    try discriminate.
  apply num_loop_body_Returned in Hb as [Hsp ->].
  apply IH. apply Hstep; assumption.
Qed.

(** The loop only appends to the list of activities. *)
Lemma num_while_loop_first_pass fuel s s' :
  Num.less A (Num.literal_0 A) (Num.miles_remaining s) = true ->
  Num.while_loop A self dm fuel s = Num.Returned s' ->
  exists rest,
    Num.l_activities s' = Num.l_activities (Num.step A self dm s) ++ rest.
Proof.
  intros Hmr. destruct fuel as [|fuel]; simpl; rewrite Hmr; [discriminate|].
  destruct (Num.loop_body A self dm s) as [s1| |] eqn:Hb; simpl;
    try discriminate.
  apply num_loop_body_Returned in Hb as [_ ->].
  generalize (Num.step A self dm s). clear s Hmr.
  induction fuel as [|fuel IH]; intros s; simpl;
    destruct (Num.less A (Num.literal_0 A) (Num.miles_remaining s));
    try discriminate;
    try (intros [= <-]; exists []; rewrite app_nil_r; reflexivity).
  destruct (Num.loop_body A self dm s) as [s1| |] eqn:Hb; simpl;
    try discriminate.
  apply num_loop_body_Returned in Hb as [_ ->]. intros Hw.
  apply IH in Hw as [rest ->]. rewrite num_step_activities, <- app_assoc.
  eauto.
Qed.

End AnyArithmetic.

Lemma num_calculate_Returned A self fuel tm dm rh m :
  Num.calculate A self fuel tm dm rh = Num.Returned m ->
  exists s,
    Num.while_loop A self dm fuel (Num.loop_entry A self tm rh) = Num.Returned s /\
    m = Num.loop_exit A self tm dm (Num.sub A tm dm) s.
Proof.
  unfold Num.calculate.
  destruct (Num.validate A self tm dm rh); [discriminate|].
  destruct (Num.while_loop A self dm fuel (Num.loop_entry A self tm rh))
    as [s| |]; simpl; try discriminate.
  intros [= <-]. eauto.
Qed.

(** ** The break rule, whatever the rounding *)




(** ** The miles of a schedule, whatever the rounding *)






(** ** A route that is never finished *)

(** On binary64, 605 miles less than 1e19 miles are 1e19 miles again.  A
    pass of the loop that starts with a full window of 11 hours and
    1e19 miles to drive takes its break and leaves both as they were. *)
Lemma absorbed_pass (s : Num.locals binary64) :
  Num.miles_remaining s = 1e19%float ->
  Num.hours_until_break s = 11%float ->
  Num.loop_body binary64 default_calculator_64 0%float s =
    Num.Returned (Num.step binary64 default_calculator_64 0%float s) /\
  Num.miles_remaining (Num.step binary64 default_calculator_64 0%float s) =
    1e19%float /\
  Num.hours_until_break (Num.step binary64 default_calculator_64 0%float s) =
    11%float.
Proof.
  intros Hmr Hh. destruct s as [acts ct md mr h tdt tbt]. simpl in Hmr, Hh.
  subst mr h. split; [|split].
  - rewrite num_loop_body_step. reflexivity.
  - reflexivity.
  - reflexivity.
Qed.

(** C5 fails on the code.  [calculate(1e19, 0, 11)] is a valid call of
    the default calculator, with a positive speed and a positive window,
    and its loop does not end: whatever the number of passes allowed,
    the result is not reached.  Each pass starts with 11 hours left and
    drives 605 miles, and [miles_remaining] does not decrease. *)
Theorem loop_never_ends_on_binary64 :
  Num.validate binary64 default_calculator_64 1e19%float 0%float 11%float = None /\
  PrimFloat.ltb 0 (Num.speed_mph default_calculator_64) = true /\
  PrimFloat.ltb 0 (Num.max_driving_hours default_calculator_64) = true /\
  (forall fuel,
     Num.calculate binary64 default_calculator_64 fuel 1e19%float 0%float 11%float
     = Num.OutOfFuel) /\
  (forall s : Num.locals binary64,
     Num.miles_remaining s = 1e19%float ->
     Num.hours_until_break s = 11%float ->
     exists s',
       Num.loop_body binary64 default_calculator_64 0%float s = Num.Returned s' /\
       Num.miles_this_segment binary64 default_calculator_64 s = 605%float /\
       Num.miles_remaining s' = Num.miles_remaining s /\
       PrimFloat.ltb (Num.miles_remaining s') (Num.miles_remaining s) = false).
Proof.
  split; [reflexivity|]. split; [reflexivity|]. split; [reflexivity|].
  split.
  - intros fuel. unfold Num.calculate.
    replace (Num.validate binary64 default_calculator_64 1e19%float 0%float
               11%float) with (@None (Num.invalid_input binary64))
      by reflexivity.
    assert (Hloop : forall s : Num.locals binary64,
              Num.miles_remaining s = 1e19%float ->
              Num.hours_until_break s = 11%float ->
              Num.while_loop binary64 default_calculator_64 0%float fuel s =
              Num.OutOfFuel).
    { induction fuel as [|fuel IH]; intros s Hmr Hh; simpl; rewrite Hmr.
      - reflexivity.
      - change (Num.less binary64 (Num.literal_0 binary64) 1e19%float)
          with true. cbv iota.
        destruct (absorbed_pass s Hmr Hh) as (Hb & Hmr' & Hh').
        rewrite Hb. simpl Num.bind. apply IH; assumption. }
    rewrite Hloop; reflexivity.
  - intros s Hmr Hh. exists (Num.step binary64 default_calculator_64 0%float s).
    destruct (absorbed_pass s Hmr Hh) as (Hb & Hmr' & _).
    split; [exact Hb|]. split.
    + unfold Num.miles_this_segment. rewrite Hmr, Hh. reflexivity.
    + rewrite Hmr', Hmr. split; reflexivity.
Qed.

(** ** Breaks and shape, whatever the rounding *)

Lemma num_count_type_snoc A k l (a : Num.Activity A) :
  Num.count_type k (l ++ [a]) =
  (Num.count_type k l + (if Num.of_type k a then 1 else 0))%nat.
Proof.
  unfold Num.count_type. rewrite filter_app, length_app. simpl.
  destruct (Num.of_type k a); reflexivity.
Qed.

Lemma num_kinds_snoc A l (a : Num.Activity A) :
  Num.kinds (l ++ [a]) = Num.kinds l ++ [Num.activity_type a].
Proof. unfold Num.kinds. rewrite map_app. reflexivity. Qed.

Lemma num_py_sum_repeat A x n :
  Num.py_sum A (repeat x (n + 1)) = Num.add A (Num.py_sum A (repeat x n)) x.
Proof.
  unfold Num.py_sum. rewrite repeat_app, fold_left_app. reflexivity.
Qed.

Lemma count_type_kinds_any A k (acts : list (Num.Activity A)) :
  Num.count_type k acts =
  List.length (filter (fun t => ActivityType_eqb t k) (Num.kinds acts)).
Proof.
  unfold Num.count_type, Num.kinds, Num.of_type.
  induction acts as [|a acts IH]; simpl; [reflexivity|].
  destruct (ActivityType_eqb (Num.activity_type a) k); simpl; rewrite IH;
    reflexivity.
Qed.

Lemma num_loop_entry_shape A self tm rh :
  shape_invariant A self (Num.loop_entry A self tm rh).
Proof.
  constructor; simpl.
  - repeat constructor; discriminate.
  - repeat constructor; discriminate.
  - reflexivity.
  - exists AfterLoading. split; [reflexivity|]. left. split; reflexivity.
Qed.

Lemma num_step_shape A self dm s :
  shape_invariant A self s -> shape_invariant A self (Num.step A self dm s).
Proof.
  intros [Hdr Hbr Hbt (st & Hscan & Hst)].
  assert (Hdrive : forall rest,
            scan_from AtStart
              ((Num.kinds (Num.l_activities s) ++ [DRIVING]) ++ rest) =
            scan_from AfterDriving rest).
  { intros rest. rewrite <- app_assoc, Hscan.
    destruct Hst as [[-> _]|[[-> _]|[-> _]]]; reflexivity. }
  assert (Hcount : (Num.count_type BREAK (Num.l_activities s) <=
                    Num.count_type DRIVING (Num.l_activities s))%nat).
  { destruct Hst as [[_ Hk]|[[_ Hlt]|[_ [Hle _]]]]; try lia.
    rewrite !count_type_kinds_any, Hk. simpl. lia. }
  unfold Num.step. destruct (Num.takes_break A self s) eqn:Ht;
    constructor; simpl.
  - repeat (apply Forall_app; split); try assumption;
      repeat constructor; simpl; try discriminate.
  - repeat (apply Forall_app; split); try assumption;
      repeat constructor; simpl; try discriminate.
  - rewrite !num_count_type_snoc. simpl. rewrite Nat.add_0_r.
    rewrite num_py_sum_repeat, Hbt. reflexivity.
  - exists AfterBreak. split.
    + intros rest. rewrite !num_kinds_snoc. simpl.
      rewrite <- app_assoc, Hdrive. reflexivity.
    + right. right. split; [reflexivity|]. split.
      * rewrite !num_count_type_snoc. simpl. lia.
      * apply num_takes_break_true. exact Ht.
  - apply Forall_app; split; try assumption.
    repeat constructor.
  - apply Forall_app; split; try assumption.
    repeat constructor; simpl; discriminate.
  - rewrite num_count_type_snoc. simpl. rewrite Nat.add_0_r. exact Hbt.
  - exists AfterDriving. split.
    + intros rest. rewrite num_kinds_snoc. simpl. apply Hdrive.
    + right. left. split; [reflexivity|].
      rewrite !num_count_type_snoc. simpl. lia.
Qed.

Lemma num_while_loop_shape A self dm fuel tm rh s :
  Num.while_loop A self dm fuel (Num.loop_entry A self tm rh) = Num.Returned s ->
  shape_invariant A self s /\
  Num.less A (Num.literal_0 A) (Num.miles_remaining s) = false.
Proof.
  intros Hw.
  apply (num_while_loop_invariant A self dm (shape_invariant A self))
    with (fuel := fuel) (s := Num.loop_entry A self tm rh) (s' := s).
  - intros s0 H0 _ _. apply num_step_shape. assumption.
  - apply num_loop_entry_shape.
  - assumption.
Qed.

(** X3.  In every result, whatever the rounding, each Break activity
    lasts [break_duration], has 0 miles and is noted "Mandatory 10-hour
    rest"; the break time of the result is [break_duration] added to 0
    once for each Break activity, in this order. *)
Theorem breaks_uniform_every_arithmetic A self fuel tm dm rh m :
  Num.calculate A self fuel tm dm rh = Num.Returned m ->
  Forall (fun a => Num.activity_type a = BREAK ->
                   Num.duration a = Num.break_duration self /\
                   Num.miles a = Num.literal_0 A /\
                   Num.notes a = "Mandatory 10-hour rest"%string)
    (Num.activities m) /\
  Num.total_break_time m =
    Num.py_sum A (repeat (Num.break_duration self)
                    (Num.count_type BREAK (Num.activities m))).
Proof.
  intros Hm. apply num_calculate_Returned in Hm as (s & Hw & ->).
  apply num_while_loop_shape in Hw as [[_ Hbr Hbt _] _]. simpl. split.
  - apply Forall_app. split; [exact Hbr|]. repeat constructor; discriminate.
  - rewrite num_count_type_snoc. simpl. rewrite Nat.add_0_r. exact Hbt.
Qed.

Lemma breaks_uniform_every_arithmetic_witness :
  exists m,
    Num.calculate binary64 default_calculator_64 4 1000%float 0%float 4.83%float
      = Num.Returned m /\
    Num.count_type BREAK (Num.activities m) = 2%nat /\
    Num.total_break_time m = 20%float.
Proof.
  assert (Hrun : exists m,
            Num.calculate binary64 default_calculator_64 4 1000%float 0%float
              4.83%float = Num.Returned m)
    by (eexists; vm_compute; reflexivity).
  destruct Hrun as [m Hm]. exists m. split; [exact Hm|].
  destruct (breaks_uniform_every_arithmetic _ _ _ _ _ _ _ Hm) as [_ Htotal].
  assert (Hcount : Num.count_type BREAK (Num.activities m) = 2%nat).
  { revert Hm. vm_compute. intros [= <-]. reflexivity. }
  split; [exact Hcount|]. rewrite Htotal, Hcount. reflexivity.
Defined.

(** X4.  The kinds of every result, whatever the rounding: Loading
    first; then driving segments, with a Break only ever between two
    Driving activities and never two Breaks in a row; Unloading last.
    There are more Driving than Break activities as soon as there are
    miles to drive, and Loading and Unloading alone when the miles are
    not [> 0]. *)
Theorem schedule_well_formed_every_arithmetic A self fuel tm dm rh m :
  Num.calculate A self fuel tm dm rh = Num.Returned m ->
  well_formed (Num.kinds (Num.activities m)) = true /\
  (Num.less A (Num.literal_0 A) tm = false ->
   Num.kinds (Num.activities m) = [LOADING; UNLOADING]) /\
  (Num.less A (Num.literal_0 A) tm = true ->
   (Num.count_type BREAK (Num.activities m) <
    Num.count_type DRIVING (Num.activities m))%nat).
Proof.
  intros Hm. apply num_calculate_Returned in Hm as (s & Hw & ->).
  pose proof (num_while_loop_shape _ _ _ _ _ _ _ Hw)
    as [[_ _ _ (st & Hscan & Hst)] Hend].
  simpl. rewrite num_kinds_snoc. simpl. split; [|split].
  - unfold well_formed. rewrite Hscan.
    destruct Hst as [[-> _]|[[-> _]|[-> [_ Hpos]]]]; try reflexivity.
    congruence.
  - intros Htm. destruct fuel as [|fuel]; simpl in Hw; rewrite Htm in Hw;
      injection Hw as <-; reflexivity.
  - intros Htm. rewrite !num_count_type_snoc. simpl. rewrite !Nat.add_0_r.
    destruct Hst as [[_ Hk]|[[_ Hlt]|[_ [_ Hpos]]]].
    + exfalso.
      apply num_while_loop_first_pass in Hw as [rest Hacts]; [|exact Htm].
      rewrite num_step_activities in Hacts.
      apply (f_equal (@List.length _)) in Hk.
      unfold Num.kinds in Hk. rewrite length_map, Hacts in Hk.
      simpl in Hk. rewrite !length_app in Hk. simpl in Hk. lia.
    + exact Hlt.
    + congruence.
Qed.

Lemma schedule_well_formed_every_arithmetic_witness :
  exists m,
    Num.calculate binary64 default_calculator_64 4 700%float 0%float 0.19%float
      = Num.Returned m /\
    well_formed (Num.kinds (Num.activities m)) = true /\
    Num.kinds (Num.activities m) =
      [LOADING; DRIVING; DRIVING; BREAK; DRIVING; BREAK; DRIVING; UNLOADING].
Proof.
  assert (Hrun : exists m,
            Num.calculate binary64 default_calculator_64 4 700%float 0%float
              0.19%float = Num.Returned m)
    by (eexists; vm_compute; reflexivity).
  destruct Hrun as [m Hm]. exists m. split; [exact Hm|].
  split.
  - apply (schedule_well_formed_every_arithmetic _ _ _ _ _ _ _ Hm).
  - revert Hm. vm_compute. intros [= <-]. reflexivity.
Defined.

(** X2.  In every result, whatever the rounding, the duration of each
    Driving activity is the quotient of its miles by [speed_mph], as
    the division of the code rounds it: the schedule holds no Driving
    activity whose two fields disagree. *)
Theorem driving_duration_every_arithmetic A self fuel tm dm rh m :
  Num.calculate A self fuel tm dm rh = Num.Returned m ->
  Forall (fun a => Num.activity_type a = DRIVING ->
                   Num.duration a =
                   Num.true_div A (Num.miles a) (Num.speed_mph self))
    (Num.activities m).
Proof.
  intros Hm. apply num_calculate_Returned in Hm as (s & Hw & ->).
  apply num_while_loop_shape in Hw as [[Hdr _ _ _] _]. simpl.
  apply Forall_app. split; [exact Hdr|]. repeat constructor; discriminate.
Qed.

Lemma driving_duration_every_arithmetic_witness :
  exists m,
    Num.calculate binary64 default_calculator_64 4 700%float 0%float 0.37%float
      = Num.Returned m /\
    Forall (fun a : Num.Activity binary64 =>
              Num.activity_type a = DRIVING ->
              Num.duration a = PrimFloat.div (Num.miles a) 55%float)
      (Num.activities m).
Proof.
  assert (Hrun : exists m,
            Num.calculate binary64 default_calculator_64 4 700%float 0%float
              0.37%float = Num.Returned m)
    by (eexists; vm_compute; reflexivity).
  destruct Hrun as [m Hm]. exists m. split; [exact Hm|].
  apply (driving_duration_every_arithmetic _ _ _ _ _ _ _ Hm).
Defined.

(** * [format_time] on binary64 numbers *)

(** The exact [format_time] above is [format_minutes] after [int]. *)
Lemma format_time_format_minutes (hours : Q) :
  format_time hours = format_minutes (py_int (hours * 60)).
Proof. reflexivity. Qed.

(** Python's results, rounding of [hours * 60] included. *)
Example format_time_64_examples :
  format_time_64 0%float = Some "00:00"%string /\
  format_time_64 1.5%float = Some "01:30"%string /\
  format_time_64 10.75%float = Some "10:45"%string /\
  format_time_64 24%float = Some "24:00"%string /\
  format_time_64 0.15%float = Some "00:09"%string /\
  format_time_64 (PrimFloat.div (-1)%float 60%float) = Some "-1:59"%string /\
  format_time_64 PrimFloat.infinity = None.
Proof. repeat split; vm_compute; reflexivity. Qed.

(** X9.  When [int(hours * 60)] is a number of minutes from 0 to 5999,
    [format_time] returns exactly five characters: two digits of hours,
    a colon, two digits of minutes, the minutes from 00 to 59. *)
Theorem format_time_64_five_characters (hours : float) (total_minutes : Z) :
  py_int_64 (PrimFloat.mul hours 60%float) = Some total_minutes ->
  (0 <= total_minutes < 6000)%Z ->
  format_time_64 hours =
    Some (two_digits (total_minutes / 60) ++ ":" ++
          two_digits (total_minutes mod 60))%string /\
  (0 <= total_minutes mod 60 < 60)%Z /\
  (forall text, format_time_64 hours = Some text -> String.length text = 5%nat).
Proof.
  intros Hint Ht. unfold format_time_64. rewrite Hint.
  pose proof (Z.mod_pos_bound total_minutes 60 eq_refl) as Hm.
  assert (Hh : (0 <= total_minutes / 60 < 100)%Z).
  { split; [apply Z.div_pos; lia|apply Z.div_lt_upper_bound; lia]. }
  unfold format_minutes. cbv zeta.
  rewrite !format_0d_two_digits by lia.
  split; [reflexivity|]. split; [exact Hm|].
  intros text [= <-]. reflexivity.
Qed.

Lemma format_time_64_five_characters_witness :
  format_time_64 0.15%float =
    Some (two_digits 0 ++ ":" ++ two_digits 9)%string.
Proof.
  refine (proj1 (format_time_64_five_characters 0.15%float 9 _ _)).
  - vm_compute. reflexivity.
  - lia.
Defined.

(** X10.  When [int(hours * 60)] is minus one minute or less,
    [format_time] puts the minus sign on the hours, which the floor
    division takes one below, and the minutes, from 00 to 59, count
    forward from them: minus thirty minutes read "-1:30". *)
Theorem format_time_64_negative (hours : float) (total_minutes : Z) :
  py_int_64 (PrimFloat.mul hours 60%float) = Some total_minutes ->
  (total_minutes <= -1)%Z ->
  exists h m,
    (h < 0)%Z /\ (0 <= m < 60)%Z /\ (60 * h + m)%Z = total_minutes /\
    format_time_64 hours =
      Some ("-" ++ zfill 1 (py_str_int (- h)) ++ ":" ++ two_digits m)%string.
Proof.
  intros Hint Ht. unfold format_time_64. rewrite Hint.
  exists (total_minutes / 60)%Z, (total_minutes mod 60)%Z.
  pose proof (Z.mod_pos_bound total_minutes 60 eq_refl) as Hm.
  pose proof (Z.div_mod total_minutes 60) as Hd.
  assert (Hh : (total_minutes / 60 < 0)%Z)
    by (apply Z.div_lt_upper_bound; lia).
  split; [exact Hh|]. split; [exact Hm|]. split; [lia|].
  unfold format_minutes. cbv zeta.
  rewrite (format_0d_two_digits (total_minutes mod 60)) by lia.
  unfold format_0d. apply Z.ltb_lt in Hh. rewrite Hh. reflexivity.
Qed.

Lemma format_time_64_negative_witness :
  exists h m,
    (h < 0)%Z /\ (0 <= m < 60)%Z /\
    format_time_64 (-0.5)%float =
      Some ("-" ++ zfill 1 (py_str_int (- h)) ++ ":" ++ two_digits m)%string.
Proof.
  assert (Hint : py_int_64 (PrimFloat.mul (-0.5)%float 60%float) = Some (-30)%Z)
    by (vm_compute; reflexivity).
  assert (Ht : (-30 <= -1)%Z) by lia.
  destruct (format_time_64_negative (-0.5)%float (-30) Hint Ht)
    as (h & m & Hh & Hm & _ & Hf).
  exists h, m. auto.
Defined.
